(** * Dental appointment booking: slot policy and appointment ledger

    A shallow embedding of [backend/server.js] and
    [backend/models/Appointment.js]: the slot policy
    ([validateAppointmentSlot]), the request validation chain
    ([appointmentValidation]) and the three appointment routes, run against
    an explicit ledger (the MongoDB collection as the list of its documents,
    in insertion order).

    Conventions.
    - A JavaScript [Date] is its time value in milliseconds since the epoch
      ([Instant t]) or the invalid date ([InvalidDate], time value NaN).
    - The server's local clock is UTC shifted by a fixed offset [tz]
      (milliseconds); [getDay] and [setHours(0,0,0,0)] are local-time
      operations and read it.  Changes of the offset during the year and
      the bound on the time values a [Date] can hold are not modelled.
    - Reads of the environment are explicit arguments: [now] is the value
      of [new Date()], [uuid] the value of [uuidv4()].
    - Strings are the byte sequences of the source text; lengths and white
      space agree with JavaScript's on ASCII text.
    - Library functions whose text is not part of the repository
      ([Date.parse], validator's [isISO8601]) are parameters of the
      development; [Wire] gives the instance for the documented
      [YYYY-MM-DD] wire format on which closed examples are evaluated. *)

From Stdlib Require Import ZArith List String Ascii Bool Lia.
From Stdlib Require Import Permutation Sorted.
Import ListNotations.

Local Open Scope string_scope.
Local Open Scope list_scope.
Local Open Scope Z_scope.

(** ** ECMAScript dates *)

Module JS.

Definition msPerDay : Z := 86400000.

Inductive Date : Type :=
| InvalidDate
| Instant (t : Z).

(** What the [Date] constructor is applied to in [server.js]: [null] (a
    date field that [toDate] could not convert), another [Date], or the text
    of a query parameter. *)
Inductive DateInit : Type :=
| FromNull
| FromDate (d : Date)
| FromText (s : string).

Section LocalClock.

Variable tz : Z.
Variable Date_parse : string -> option Z.

(** [new Date(v)] *)
Definition newDate (v : DateInit) : Date :=
  match v with
  | FromNull => Instant 0
  | FromDate d => d
  | FromText s =>
      match Date_parse s with
      | Some t => Instant t
      | None => InvalidDate
      end
  end.

(** Day number of the local calendar day containing [t]. *)
Definition localDay (t : Z) : Z := (t + tz) / msPerDay.

(** [d.getDay()]: 0 is Sunday; [None] is NaN.  Day 0 of the epoch was a
    Thursday. *)
Definition getDay (d : Date) : option Z :=
  match d with
  | InvalidDate => None
  | Instant t => Some ((localDay t + 4) mod 7)
  end.

(** [d.setHours(0, 0, 0, 0)]: the local midnight that starts [d]'s day. *)
Definition startOfDay (t : Z) : Z := t - (t + tz) mod msPerDay.

Definition setHours0 (d : Date) : Date :=
  match d with
  | InvalidDate => InvalidDate
  | Instant t => Instant (startOfDay t)
  end.

End LocalClock.

(** [a < b] on dates: false as soon as one side is NaN. *)
Definition lt (a b : Date) : bool :=
  match a, b with
  | Instant x, Instant y => x <? y
  | _, _ => false
  end.

(** [x === n] for the result of [getDay]. *)
Definition strictEq (x : option Z) (n : Z) : bool :=
  match x with
  | Some v => v =? n
  | None => false
  end.

(** [arr.includes(s)] on an array of strings. *)
Definition includes (arr : list string) (s : string) : bool :=
  existsb (String.eqb s) arr.

(** [s.trim()], on the ASCII white space characters. *)
Definition isSpace (c : ascii) : bool :=
  let n := nat_of_ascii c in
  (Nat.eqb n 32 || (Nat.leb 9 n && Nat.leb n 13))%bool.

Fixpoint trimStart (s : string) : string :=
  match s with
  | EmptyString => EmptyString
  | String c r => if isSpace c then trimStart r else s
  end.

Fixpoint trimEnd (s : string) : string :=
  match s with
  | EmptyString => EmptyString
  | String c r =>
      match trimEnd r with
      | EmptyString => if isSpace c then EmptyString else String c EmptyString
      | r' => String c r'
      end
  end.

Definition trim (s : string) : string := trimEnd (trimStart s).

(** Proleptic Gregorian calendar: day number (days since 1970-01-01) of a
    civil date and back.  Months and days out of range carry over, as in
    [MakeDay]. *)
Definition daysFromCivil (y m d : Z) : Z :=
  let y' := if m <=? 2 then y - 1 else y in
  let era := y' / 400 in
  let yoe := y' - era * 400 in
  let mp := if 2 <? m then m - 3 else m + 9 in
  let doy := (153 * mp + 2) / 5 + d - 1 in
  let doe := yoe * 365 + yoe / 4 - yoe / 100 + doy in
  era * 146097 + doe - 719468.

Definition civilFromDays (n : Z) : Z * Z * Z :=
  let z := n + 719468 in
  let era := z / 146097 in
  let doe := z - era * 146097 in
  let yoe := (doe - doe / 1460 + doe / 36524 - doe / 146096) / 365 in
  let doy := doe - (365 * yoe + yoe / 4 - yoe / 100) in
  let mp := (5 * doy + 2) / 153 in
  let d := doy - (153 * mp + 2) / 5 + 1 in
  let m := if mp <? 10 then mp + 3 else mp - 9 in
  ((if m <=? 2 then yoe + era * 400 + 1 else yoe + era * 400), m, d).

(** Decimal text of [z], zero-padded to [width] digits. *)
Fixpoint padDigits (width : nat) (z : Z) : string :=
  match width with
  | O => EmptyString
  | S w =>
      String.append (padDigits w (z / 10))
        (String (ascii_of_nat (48 + Z.to_nat (z mod 10))) EmptyString)
  end.

Definition yearText (y : Z) : string :=
  if ((0 <=? y) && (y <=? 9999))%bool then padDigits 4 y
  else String.append (if y <? 0 then "-" else "+") (padDigits 6 (Z.abs y)).

(** [new Date(t).toISOString().split('T')[0]]: the UTC calendar date. *)
Definition toISODate (t : Z) : string :=
  let '(y, m, d) := civilFromDays (t / msPerDay) in
  String.concat "-" [yearText y; padDigits 2 m; padDigits 2 d].

End JS.

(** ** The documented wire format

    [Date.parse] and validator's [isISO8601] (non-strict) on calendar-date
    text [YYYY-MM-DD], the form the API documents for both routes.  Such
    text denotes midnight UTC of that day; [isISO8601] checks the shape
    and the ranges 01-12 and 01-31 only.  Text of any other shape is outside
    this instance (and reported as not a date). *)

Module Wire.

Definition digit (c : ascii) : option Z :=
  let n := Z.of_nat (nat_of_ascii c) in
  if ((48 <=? n) && (n <=? 57))%bool then Some (n - 48) else None.

Fixpoint number (acc : Z) (cs : list ascii) : option Z :=
  match cs with
  | [] => Some acc
  | c :: r =>
      match digit c with
      | Some v => number (10 * acc + v) r
      | None => None
      end
  end.

Definition isDash (c : ascii) : bool := Nat.eqb (nat_of_ascii c) 45.

Definition fields (s : string) : option (Z * Z * Z) :=
  match list_ascii_of_string s with
  | [y1; y2; y3; y4; s1; m1; m2; s2; d1; d2] =>
      if (isDash s1 && isDash s2)%bool then
        match number 0 [y1; y2; y3; y4], number 0 [m1; m2], number 0 [d1; d2] with
        | Some y, Some m, Some d =>
            if ((1 <=? m) && (m <=? 12) && (1 <=? d) && (d <=? 31))%bool
            then Some (y, m, d) else None
        | _, _, _ => None
        end
      else None
  | _ => None
  end.

Definition isISO8601 (s : string) : bool :=
  match fields s with
  | Some _ => true
  | None => false
  end.

Definition Date_parse (s : string) : option Z :=
  match fields s with
  | Some (y, m, d) => Some (JS.msPerDay * JS.daysFromCivil y m d)
  | None => None
  end.

End Wire.

(** ** Data model (models/Appointment.js) *)

(** A stored document.  MongoDB's own bookkeeping fields ([_id], [__v],
    [updatedAt]) carry no logic and are left out. *)
Module Appointment.
Record t : Type := mk {
  id : string;
  name : string;
  sex : string;
  age : Z;
  complaint : string;
  appointmentDate : Z;
  timeSlot : string;
  createdAt : Z;
  status : string
}.
End Appointment.

(** The JSON body of [POST /api/appointments] as received. *)
Module Body.
Record t : Type := mk {
  name : string;
  sex : string;
  age : Z;
  complaint : string;
  appointmentDate : string;
  timeSlot : string
}.
End Body.

(** A document as the routes send it: [toObject()] plus the three aliases
    the frontend reads. *)
Module View.
Record t : Type := mk {
  doc : Appointment.t;
  appointment_date : string;
  time_slot : string;
  created_at : Z
}.
End View.

(** The body of a successful availability reply. *)
Module Slots.
Record t : Type := mk {
  available_slots : list string;
  message : option string
}.
End Slots.

Record FieldError : Type := {
  path : string;
  msg : string
}.

(** Errors raised by the storage layer (Mongoose and MongoDB): a value
    that cannot be cast to the type of its path, a document that fails the
    validators of the schema, and a violated unique index. *)
Inductive StoreError : Type :=
| CastError (onPath : string)
| ValidationError (onPaths : list string)
| DuplicateKey (index : string).

(** What a route sends.  [ServerError] is the [catch] block: a fixed
    prefix followed by the message of the error caught. *)
Inductive Reply (A : Type) : Type :=
| Ok (body : A)
| BadRequest (detail : option string) (errors : list FieldError)
| ServerError (prefix : string) (error : StoreError).

Arguments Ok {A} body.
Arguments BadRequest {A} detail errors.
Arguments ServerError {A} prefix error.

Definition Ledger : Type := list Appointment.t.

Definition allSlots : list string :=
  ["9:00–10:00 AM"; "10:00–11:00 AM"; "11:00–12:00 PM"; "12:00–1:00 PM";
   "2:00–3:00 PM"; "3:00–4:00 PM"].

Definition afternoonSlots : list string :=
  ["2:00–3:00 PM"; "3:00–4:00 PM"].

Definition saturdaySlots : list string :=
  ["9:00–10:00 AM"; "10:00–11:00 AM"; "11:00–12:00 PM"; "12:00–1:00 PM"].

Record SlotValidation : Type := {
  isValid : bool;
  message : option string
}.

(** ** Storage layer (Mongoose model [Appointment]) *)

(** Casting a query or document value for the path [appointmentDate]. *)
Definition castDate (d : JS.Date) : Z + StoreError :=
  match d with
  | JS.Instant t => inl t
  | JS.InvalidDate => inr (CastError "appointmentDate")
  end.

Definition onDate (t : Z) (a : Appointment.t) : bool :=
  Appointment.appointmentDate a =? t.

Definition onDateSlot (t : Z) (slot : string) (a : Appointment.t) : bool :=
  (onDate t a && String.eqb (Appointment.timeSlot a) slot)%bool.

(** [Appointment.findOne({ appointmentDate, timeSlot })] *)
Definition findOne (ledger : Ledger) (d : JS.Date) (slot : string)
    : option Appointment.t + StoreError :=
  match castDate d with
  | inl t => inl (find (onDateSlot t slot) ledger)
  | inr e => inr e
  end.

(** [Appointment.find({ appointmentDate })] *)
Definition findByDate (ledger : Ledger) (d : JS.Date)
    : list Appointment.t + StoreError :=
  match castDate d with
  | inl t => inl (filter (onDate t) ledger)
  | inr e => inr e
  end.

(** The validators of [appointmentSchema], path by path: [required],
    [minlength]/[maxlength], [min]/[max] and [enum].  The result lists the
    paths that fail. *)
Definition required (s : string) : bool := negb (String.eqb s "").

Definition lengthWithin (min max : nat) (s : string) : bool :=
  (Nat.leb min (String.length s) && Nat.leb (String.length s) max)%bool.

Definition failing (ok : bool) (path : string) : list string :=
  if ok then [] else [path].

Definition schemaValidation (a : Appointment.t) : list string :=
  failing (required (Appointment.id a)) "id"
  ++ failing (required (Appointment.name a)
              && lengthWithin 2 100 (Appointment.name a)) "name"
  ++ failing (required (Appointment.sex a)
              && JS.includes ["Male"; "Female"; "Other"] (Appointment.sex a)) "sex"
  ++ failing ((0 <=? Appointment.age a) && (Appointment.age a <=? 150)) "age"
  ++ failing (required (Appointment.complaint a)
              && lengthWithin 5 500 (Appointment.complaint a)) "complaint"
  ++ failing (required (Appointment.timeSlot a)
              && JS.includes allSlots (Appointment.timeSlot a)) "timeSlot"
  ++ failing (JS.includes ["scheduled"; "confirmed"; "cancelled"; "completed"]
                (Appointment.status a)) "status".

(** [appointment.save()]: the document is validated against the schema and
    inserted.  The schema declares one unique path, [id]; the compound index
    on [appointmentDate] and [timeSlot] is a plain index and constrains
    nothing. *)
Definition save (ledger : Ledger) (a : Appointment.t) : Ledger + StoreError :=
  match schemaValidation a with
  | _ :: _ => inr (ValidationError (schemaValidation a))
  | [] =>
      if existsb (fun b => String.eqb (Appointment.id b) (Appointment.id a)) ledger
      then inr (DuplicateKey "id")
      else inl (ledger ++ [a])
  end.

(** [.sort({ appointmentDate: 1 })], as a stable insertion sort; how the
    database orders records of equal date is left open by it, and nothing
    below depends on the choice. *)
Fixpoint insertByDate (a : Appointment.t) (l : list Appointment.t)
    : list Appointment.t :=
  match l with
  | [] => [a]
  | b :: r =>
      if Appointment.appointmentDate a <=? Appointment.appointmentDate b
      then a :: l
      else b :: insertByDate a r
  end.

Fixpoint sortByDate (l : list Appointment.t) : list Appointment.t :=
  match l with
  | [] => []
  | a :: r => insertByDate a (sortByDate r)
  end.

(** [Appointment.find().sort({ appointmentDate: 1 }).limit(1000)] *)
Definition findSortedLimited (ledger : Ledger) : list Appointment.t :=
  firstn 1000 (sortByDate ledger).

(** ** Request validation and routes (server.js) *)

Definition check (ok : bool) (path msg : string) : list FieldError :=
  if ok then [] else [{| path := path; msg := msg |}].

Definition notEmpty (s : string) : bool := negb (String.eqb s "").

Definition isLength (min max : nat) (s : string) : bool :=
  (Nat.leb min (String.length s) && Nat.leb (String.length s) max)%bool.

Definition isInt (min max : Z) (n : Z) : bool :=
  ((min <=? n) && (n <=? max))%bool.

Definition toView (a : Appointment.t) : View.t :=
  {| View.doc := a;
     View.appointment_date := JS.toISODate (Appointment.appointmentDate a);
     View.time_slot := Appointment.timeSlot a;
     View.created_at := Appointment.createdAt a |}.

Section Server.

Variable tz : Z.
Variable Date_parse : string -> option Z.
Variable isISO8601 : string -> bool.

Definition validateAppointmentSlot
    (now : Z) (appointmentDate : JS.DateInit) (timeSlot : string)
    : SlotValidation :=
  let date := JS.newDate Date_parse appointmentDate in
  let dayOfWeek := JS.getDay tz date in
  if JS.strictEq dayOfWeek 0 then
    {| isValid := false;
       message := Some "Appointments are not available on Sundays" |}
  else if (JS.strictEq dayOfWeek 6 && JS.includes afternoonSlots timeSlot)%bool then
    {| isValid := false;
       message := Some "On Saturdays, appointments are only available until 1:00 PM" |}
  else
    let today := JS.setHours0 tz (JS.Instant now) in
    let date := JS.setHours0 tz date in
    if JS.lt date today then
      {| isValid := false;
         message := Some "Cannot book appointments for past dates" |}
    else
      {| isValid := true; message := None |}.

(** The validation chain: every failing validator contributes its error.
    [name] and [complaint] are validated after the [trim] sanitizer. *)
Definition appointmentValidation (body : Body.t) : list FieldError :=
  let name := JS.trim (Body.name body) in
  let complaint := JS.trim (Body.complaint body) in
  check (notEmpty name) "name" "Name is required"
  ++ check (isLength 2 100 name) "name"
       "Name must be between 2 and 100 characters"
  ++ check (notEmpty (Body.sex body)) "sex" "Sex is required"
  ++ check (JS.includes ["Male"; "Female"; "Other"] (Body.sex body)) "sex"
       "Sex must be Male, Female, or Other"
  ++ check (isInt 0 150 (Body.age body)) "age"
       "Age must be a number between 0 and 150"
  ++ check (notEmpty complaint) "complaint" "Complaint is required"
  ++ check (isLength 5 500 complaint) "complaint"
       "Complaint must be between 5 and 500 characters"
  ++ check (isISO8601 (Body.appointmentDate body)) "appointmentDate"
       "Valid appointment date is required"
  ++ check (notEmpty (Body.timeSlot body)) "timeSlot" "Time slot is required"
  ++ check (JS.includes allSlots (Body.timeSlot body)) "timeSlot"
       "Invalid time slot selected".

(** The [toDate] sanitizer: a [Date], or [null] when the text does not
    parse. *)
Definition toDate (s : string) : JS.DateInit :=
  match Date_parse s with
  | Some t => JS.FromDate (JS.Instant t)
  | None => JS.FromNull
  end.

(** The document built by [new Appointment({...})]: [name] and
    [complaint] pass through the schema's [trim] setter, [status] and
    [createdAt] take the schema defaults. *)
Definition newAppointment
    (now : Z) (uuid : string) (name sex : string) (age : Z)
    (complaint : string) (date : Z) (timeSlot : string) : Appointment.t :=
  {| Appointment.id := uuid;
     Appointment.name := JS.trim name;
     Appointment.sex := sex;
     Appointment.age := age;
     Appointment.complaint := JS.trim complaint;
     Appointment.appointmentDate := date;
     Appointment.timeSlot := timeSlot;
     Appointment.createdAt := now;
     Appointment.status := "scheduled" |}.

(** [POST /api/appointments], run without interruption. *)
Definition postAppointments
    (now : Z) (uuid : string) (body : Body.t) (ledger : Ledger)
    : Reply View.t * Ledger :=
  let failed := ServerError "Failed to create appointment: " in
  let errors := appointmentValidation body in
  match errors with
  | _ :: _ => (BadRequest (Some "Validation failed") errors, ledger)
  | [] =>
      let name := JS.trim (Body.name body) in
      let complaint := JS.trim (Body.complaint body) in
      let appointmentDate := toDate (Body.appointmentDate body) in
      let timeSlot := Body.timeSlot body in
      let slotValidation := validateAppointmentSlot now appointmentDate timeSlot in
      if negb (isValid slotValidation) then
        (BadRequest (message slotValidation) [], ledger)
      else
        match findOne ledger (JS.newDate Date_parse appointmentDate) timeSlot with
        | inr error => (failed error, ledger)
        | inl (Some existingAppointment) =>
            (BadRequest
               (Some "This time slot is already booked for the selected date") [],
             ledger)
        | inl None =>
            match castDate (JS.newDate Date_parse appointmentDate) with
            | inr error => (failed error, ledger)
            | inl date =>
                let appointment :=
                  newAppointment now uuid name (Body.sex body) (Body.age body)
                    complaint date timeSlot in
                match save ledger appointment with
                | inr error => (failed error, ledger)
                | inl ledger' => (Ok (toView appointment), ledger')
                end
            end
        end
  end.

(** [GET /api/appointments] *)
Definition getAppointments (ledger : Ledger) : Reply (list View.t) * Ledger :=
  let appointments := findSortedLimited ledger in
  (Ok (map toView appointments), ledger).

(** [GET /api/appointments/available-slots]; the query parameter is absent
    ([None]) or holds text. *)
Definition getAvailableSlots (appointment_date : option string) (ledger : Ledger)
    : Reply Slots.t * Ledger :=
  match appointment_date with
  | None | Some EmptyString =>
      (BadRequest (Some "appointment_date query parameter is required") [],
       ledger)
  | Some text =>
      let targetDate := JS.newDate Date_parse (JS.FromText text) in
      let dayOfWeek := JS.getDay tz targetDate in
      if JS.strictEq dayOfWeek 0 then
        (Ok {| Slots.available_slots := [];
               Slots.message := Some "No appointments available on Sundays" |},
         ledger)
      else
        let availableSlots :=
          if JS.strictEq dayOfWeek 6 then saturdaySlots else allSlots in
        match findByDate ledger targetDate with
        | inr error =>
            (ServerError "Failed to fetch available slots: " error, ledger)
        | inl bookedAppointments =>
            let bookedSlots := map Appointment.timeSlot bookedAppointments in
            let finalAvailableSlots :=
              filter (fun slot => negb (JS.includes bookedSlots slot))
                availableSlots in
            (Ok {| Slots.available_slots := finalAvailableSlots;
                   Slots.message := None |},
             ledger)
        end
  end.

End Server.

(** ** The POST handler under interleaving

    The handler is an [async] function with two suspension points,
    [await Appointment.findOne] and [await appointment.save()].  Node runs
    the code between suspension points without interruption, so a request
    in flight is a call of the handler that touches the ledger once per
    step: the first step runs up to the answer of [findOne], the second
    performs [save] and replies.  Other requests may take steps in
    between. *)

Inductive Call : Type :=
| Received (now : Z) (uuid : string) (body : Body.t)
| Saving (appointment : Appointment.t)
| Finished (reply : Reply View.t).

Section Interleaving.

Variable tz : Z.
Variable Date_parse : string -> option Z.
Variable isISO8601 : string -> bool.

Definition step (call : Call) (ledger : Ledger) : Call * Ledger :=
  let failed := ServerError "Failed to create appointment: " in
  match call with
  | Received now uuid body =>
      let errors := appointmentValidation isISO8601 body in
      match errors with
      | _ :: _ =>
          (Finished (BadRequest (Some "Validation failed") errors), ledger)
      | [] =>
          let appointmentDate := toDate Date_parse (Body.appointmentDate body) in
          let timeSlot := Body.timeSlot body in
          let slotValidation :=
            validateAppointmentSlot tz Date_parse now appointmentDate timeSlot in
          if negb (isValid slotValidation) then
            (Finished (BadRequest (message slotValidation) []), ledger)
          else
            match findOne ledger (JS.newDate Date_parse appointmentDate) timeSlot with
            | inr error => (Finished (failed error), ledger)
            | inl (Some existingAppointment) =>
                (Finished
                   (BadRequest
                      (Some "This time slot is already booked for the selected date")
                      []),
                 ledger)
            | inl None =>
                match castDate (JS.newDate Date_parse appointmentDate) with
                | inr error => (Finished (failed error), ledger)
                | inl date =>
                    (Saving
                       (newAppointment now uuid (JS.trim (Body.name body))
                          (Body.sex body) (Body.age body)
                          (JS.trim (Body.complaint body)) date timeSlot),
                     ledger)
                end
            end
      end
  | Saving appointment =>
      match save ledger appointment with
      | inr error => (Finished (failed error), ledger)
      | inl ledger' => (Finished (Ok (toView appointment)), ledger')
      end
  | Finished reply => (call, ledger)
  end.

(** The call at position [i] takes its next step. *)
Fixpoint stepAt (i : nat) (calls : list Call) (ledger : Ledger)
    : list Call * Ledger :=
  match calls, i with
  | [], _ => ([], ledger)
  | call :: rest, O =>
      let (call', ledger') := step call ledger in (call' :: rest, ledger')
  | call :: rest, S j =>
      let (rest', ledger') := stepAt j rest ledger in (call :: rest', ledger')
  end.

(** A schedule names, in order, the call that runs next. *)
Fixpoint run (schedule : list nat) (calls : list Call) (ledger : Ledger)
    : list Call * Ledger :=
  match schedule with
  | [] => (calls, ledger)
  | i :: later =>
      let (calls', ledger') := stepAt i calls ledger in run later calls' ledger'
  end.

(** Requests served one after the other. *)
Record Request : Type := {
  arrival : Z;
  token : string;
  payload : Body.t
}.

Definition serve (requests : list Request) (ledger : Ledger) : Ledger :=
  fold_left
    (fun l r =>
       snd (postAppointments tz Date_parse isISO8601
              (arrival r) (token r) (payload r) l))
    requests ledger.

End Interleaving.

(** ** Notions used by the statements *)

(** Text that does not begin with white space. *)
Definition startsClean (s : string) : Prop :=
  match s with
  | EmptyString => True
  | String c _ => JS.isSpace c = false
  end.

(** The pair on which bookings must not collide. *)
Definition slotKey (a : Appointment.t) : Z * string :=
  (Appointment.appointmentDate a, Appointment.timeSlot a).

Definition SlotsUnique (ledger : Ledger) : Prop := NoDup (map slotKey ledger).

(** [Subseq xs ys]: [xs] is [ys] with some entries left out, order kept. *)
Inductive Subseq {A : Type} : list A -> list A -> Prop :=
| Subseq_nil : Subseq [] []
| Subseq_skip : forall x xs ys, Subseq xs ys -> Subseq xs (x :: ys)
| Subseq_take : forall x xs ys, Subseq xs ys -> Subseq (x :: xs) (x :: ys).

Definition byDate (a b : Appointment.t) : Prop :=
  Appointment.appointmentDate a <= Appointment.appointmentDate b.

(** The availability listing in the specification's words: the day's
    theoretical slots are all six slots, minus all slots on a Sunday, minus
    the two afternoon slots on a Saturday; the listing is the theoretical
    set minus the slots taken on that date. *)
Definition minus (xs ys : list string) : list string :=
  filter (fun s => negb (JS.includes ys s)) xs.

Definition specTheoreticalSlots (dayOfWeek : option Z) : list string :=
  minus
    (minus allSlots (if JS.strictEq dayOfWeek 0 then allSlots else []))
    (if JS.strictEq dayOfWeek 6 then afternoonSlots else []).

Definition listForDate (ledger : Ledger) (t : Z) : list string :=
  map Appointment.timeSlot (filter (onDate t) ledger).

Definition specAvailableSlots (tz : Z) (ledger : Ledger) (t : Z) : list string :=
  minus (specTheoreticalSlots (JS.getDay tz (JS.Instant t))) (listForDate ledger t).

(** The instant a booking is made for: the parsed date, or the epoch when
    [toDate] left [null]. *)
Definition bookedInstant (Date_parse : string -> option Z) (body : Body.t) : Z :=
  match Date_parse (Body.appointmentDate body) with
  | Some t => t
  | None => 0
  end.

(** The document a request turns into. *)
Definition draft (Date_parse : string -> option Z)
    (now : Z) (uuid : string) (body : Body.t) : Appointment.t :=
  newAppointment now uuid (JS.trim (Body.name body)) (Body.sex body)
    (Body.age body) (JS.trim (Body.complaint body))
    (bookedInstant Date_parse body) (Body.timeSlot body).

Definition duplicateBooking : Reply View.t :=
  BadRequest (Some "This time slot is already booked for the selected date") [].

(** ** Sample requests (README, "API Usage Examples") *)

Module Sample.

Definition hour : Z := 3600000.

(** Wall-clock instants, UTC. *)
Definition wed_2024_01_10_0800 : Z := 1704844800000 + 8 * hour.
Definition tue_2025_06_10_0800 : Z := 1749513600000 + 8 * hour.
Definition wed_2025_06_11_0800 : Z := 1749600000000 + 8 * hour.

Definition checkup (date slot : string) : Body.t :=
  {| Body.name := "John Doe";
     Body.sex := "Male";
     Body.age := 30;
     Body.complaint := "Regular dental checkup";
     Body.appointmentDate := date;
     Body.timeSlot := slot |}.

Definition padded : Body.t :=
  {| Body.name := "  John Doe ";
     Body.sex := "Male";
     Body.age := 30;
     Body.complaint := "Regular dental checkup";
     Body.appointmentDate := "2025-06-10";
     Body.timeSlot := "9:00–10:00 AM" |}.

(** The server on a UTC clock, with the calendar-date wire format. *)
Definition post := postAppointments 0 Wire.Date_parse Wire.isISO8601.
Definition slots := getAvailableSlots 0 Wire.Date_parse.
Definition policy := validateAppointmentSlot 0 Wire.Date_parse.
Definition race := run 0 Wire.Date_parse Wire.isISO8601.

(** The record stored by the first booking of scenario D. *)
Definition booked (uuid : string) : Appointment.t :=
  {| Appointment.id := uuid;
     Appointment.name := "John Doe";
     Appointment.sex := "Male";
     Appointment.age := 30;
     Appointment.complaint := "Regular dental checkup";
     Appointment.appointmentDate := 1749513600000;
     Appointment.timeSlot := "9:00–10:00 AM";
     Appointment.createdAt := tue_2025_06_10_0800;
     Appointment.status := "scheduled" |}.

(** The same record after the clinic has marked it cancelled. *)
Definition cancelled (uuid : string) : Appointment.t :=
  {| Appointment.id := uuid;
     Appointment.name := "John Doe";
     Appointment.sex := "Male";
     Appointment.age := 30;
     Appointment.complaint := "Regular dental checkup";
     Appointment.appointmentDate := 1749513600000;
     Appointment.timeSlot := "9:00–10:00 AM";
     Appointment.createdAt := tue_2025_06_10_0800;
     Appointment.status := "cancelled" |}.

(** A later checkup, stored first. *)
Definition followUp : Appointment.t :=
  {| Appointment.id := "id-0";
     Appointment.name := "Jane Roe";
     Appointment.sex := "Female";
     Appointment.age := 41;
     Appointment.complaint := "Follow-up visit";
     Appointment.appointmentDate := 1749600000000;
     Appointment.timeSlot := "2:00–3:00 PM";
     Appointment.createdAt := wed_2024_01_10_0800;
     Appointment.status := "confirmed" |}.

End Sample.

(** ** The booking form (frontend/src/App.js)

    The part of the form that talks to the server: the state behind the six
    inputs and the body that [handleSubmit] posts.  [parseInt] is a
    parameter; where it gives NaN the JSON body carries [null]. *)

Module Form.
Record t : Type := mk {
  name : string;
  sex : string;
  age : string;
  complaint : string;
  time_slot : string;
  appointment_date : string
}.
End Form.

Module Json.

Inductive value : Type :=
| Null
| Num (n : Z)
| Str (s : string).

Definition object : Type := list (string * value).

(** [o[key]]; [None] is [undefined]. *)
Fixpoint get (o : object) (key : string) : option value :=
  match o with
  | [] => None
  | (k, v) :: rest => if String.eqb k key then Some v else get rest key
  end.

End Json.

(** [{ ...formData, age: parseInt(formData.age) }] *)
Definition submitted (parseInt : string -> option Z) (formData : Form.t)
    : Json.object :=
  [("name", Json.Str (Form.name formData));
   ("sex", Json.Str (Form.sex formData));
   ("age", match parseInt (Form.age formData) with
           | Some n => Json.Num n
           | None => Json.Null
           end);
   ("complaint", Json.Str (Form.complaint formData));
   ("time_slot", Json.Str (Form.time_slot formData));
   ("appointment_date", Json.Str (Form.appointment_date formData))].

(** The text a validator of [body(key)] works on: the field as a string,
    the empty string when the key is absent or [null].  Numbers in text
    fields are outside the model. *)
Definition fieldText (o : Json.object) (key : string) : option string :=
  match Json.get o key with
  | None | Some Json.Null => Some ""
  | Some (Json.Str s) => Some s
  | Some (Json.Num _) => None
  end.

(** The request body as the booking route reads it, field by field, from
    the keys it names; defined when [age] is a number and the other fields
    are text or missing. *)
Definition asBody (o : Json.object) : option Body.t :=
  match fieldText o "name", fieldText o "sex", Json.get o "age",
        fieldText o "complaint", fieldText o "appointmentDate",
        fieldText o "timeSlot" with
  | Some name, Some sex, Some (Json.Num age), Some complaint,
    Some appointmentDate, Some timeSlot =>
      Some {| Body.name := name;
              Body.sex := sex;
              Body.age := age;
              Body.complaint := complaint;
              Body.appointmentDate := appointmentDate;
              Body.timeSlot := timeSlot |}
  | _, _, _, _, _, _ => None
  end.

(** ** More of the wire format

    The calendar-date instance extended with two more ISO 8601 forms that
    validator's [isISO8601] accepts: the UTC date-time
    [YYYY-MM-DDTHH:MM:SSZ], which [Date.parse] reads, and the week date
    [YYYY-Www-D], which it does not.  [parseInt] is given on plain decimal
    numerals. *)

Module WireMore.

Definition isChar (n : nat) (c : ascii) : bool := Nat.eqb (nat_of_ascii c) n.

(** [THH:MM:SSZ], in milliseconds *)
Definition timeOfDay (cs : list ascii) : option Z :=
  match cs with
  | [sep; h1; h2; c1; m1; m2; c2; s1; s2; z] =>
      if (isChar 84 sep && isChar 58 c1 && isChar 58 c2 && isChar 90 z)%bool then
        match Wire.number 0 [h1; h2], Wire.number 0 [m1; m2],
              Wire.number 0 [s1; s2] with
        | Some h, Some m, Some sec =>
            if ((h <=? 23) && (m <=? 59) && (sec <=? 59))%bool
            then Some (((h * 60 + m) * 60 + sec) * 1000) else None
        | _, _, _ => None
        end
      else None
  | _ => None
  end.

Definition Date_parse (s : string) : option Z :=
  let cs := list_ascii_of_string s in
  match Wire.Date_parse (string_of_list_ascii (firstn 10 cs)), skipn 10 cs with
  | Some day, [] => Some day
  | Some day, rest =>
      match timeOfDay rest with
      | Some ms => Some (day + ms)
      | None => None
      end
  | None, _ => None
  end.

Definition isWeekDate (s : string) : bool :=
  match list_ascii_of_string s with
  | [y1; y2; y3; y4; s1; w; w1; w2; s2; d] =>
      if (Wire.isDash s1 && isChar 87 w && Wire.isDash s2)%bool then
        match Wire.number 0 [y1; y2; y3; y4], Wire.number 0 [w1; w2],
              Wire.number 0 [d] with
        | Some _, Some week, Some day =>
            ((1 <=? week) && (week <=? 53) && (1 <=? day) && (day <=? 7))%bool
        | _, _, _ => false
        end
      else false
  | _ => false
  end.

Definition isISO8601 (s : string) : bool :=
  match Date_parse s with
  | Some _ => true
  | None => isWeekDate s
  end.

Definition parseInt (s : string) : option Z :=
  match list_ascii_of_string s with
  | [] => None
  | cs => Wire.number 0 cs
  end.

End WireMore.

(** A form as filled in for the sample checkup. *)
Definition sampleForm : Form.t :=
  {| Form.name := "John Doe";
     Form.sex := "Male";
     Form.age := "30";
     Form.complaint := "Regular dental checkup";
     Form.time_slot := "9:00–10:00 AM";
     Form.appointment_date := "2025-06-10" |}.

(** A visit of the day before the sample checkup, and a ledger holding a
    thousand of it. *)
Definition pastVisit : Appointment.t :=
  {| Appointment.id := "id-9";
     Appointment.name := "Jane Roe";
     Appointment.sex := "Female";
     Appointment.age := 41;
     Appointment.complaint := "Follow-up visit";
     Appointment.appointmentDate := 1749427200000;
     Appointment.timeSlot := "2:00–3:00 PM";
     Appointment.createdAt := Sample.wed_2024_01_10_0800;
     Appointment.status := "completed" |}.

Definition fullLedger : Ledger := repeat pastVisit 1000.

(** ** Further notions used by the statements *)

Definition IdsUnique (ledger : Ledger) : Prop :=
  NoDup (map Appointment.id ledger).

Definition WithinSchema (ledger : Ledger) : Prop :=
  Forall (fun a => schemaValidation a = []) ledger.


(** The conditions under which the slot policy lets a valid date through. *)
Definition Bookable (tz now t : Z) (slot : string) : Prop :=
  JS.getDay tz (JS.Instant t) <> Some 0
  /\ (JS.getDay tz (JS.Instant t) = Some 6 -> ~ In slot afternoonSlots)
  /\ JS.startOfDay tz now <= JS.startOfDay tz t.

(** The field constraints behind the validation chain. *)
Definition WellFormedBody (isISO8601 : string -> bool) (body : Body.t) : Prop :=
  (2 <= String.length (JS.trim (Body.name body)) <= 100)%nat
  /\ In (Body.sex body) ["Male"; "Female"; "Other"]
  /\ 0 <= Body.age body <= 150
  /\ (5 <= String.length (JS.trim (Body.complaint body)) <= 500)%nat
  /\ isISO8601 (Body.appointmentDate body) = true
  /\ In (Body.timeSlot body) allSlots.

(** Text made of white space only. *)
Fixpoint isBlank (s : string) : bool :=
  match s with
  | EmptyString => true
  | String c r => (JS.isSpace c && isBlank r)%bool
  end.

(** The reply a call has reached, if it has finished. *)
Definition replyOf (call : Call) : option (Reply View.t) :=
  match call with
  | Finished reply => Some reply
  | _ => None
  end.

(** The state a call is in once [findOne] has answered. *)
Definition checked
    (tz : Z) (Date_parse : string -> option Z) (isISO8601 : string -> bool)
    (now : Z) (uuid : string) (body : Body.t) (ledger : Ledger) : Call :=
  fst (step tz Date_parse isISO8601 (Received now uuid body) ledger).

(** The date and slot a request asks for. *)
Definition requestKey (Date_parse : string -> option Z) (body : Body.t)
    : Z * string :=
  (bookedInstant Date_parse body, Body.timeSlot body).

(** The orders in which two calls of two steps each can run to the end. *)
Definition interleavings : list (list nat) :=
  [[0; 0; 1; 1]; [0; 1; 0; 1]; [0; 1; 1; 0];
   [1; 0; 0; 1]; [1; 0; 1; 0]; [1; 1; 0; 0]]%nat.

(** * Properties *)

(** ** Local clock arithmetic *)

Section ClockFacts.

Variable tz : Z.

Lemma startOfDay_localDay (t : Z) :
  JS.startOfDay tz t = JS.msPerDay * JS.localDay tz t - tz.
Proof.
  unfold JS.startOfDay, JS.localDay.
  pose proof (Z.div_mod (t + tz) JS.msPerDay) as E.
  unfold JS.msPerDay in *. lia.
Qed.

(** Midnights are ordered as the calendar days they start. *)
Lemma startOfDay_lt (t u : Z) :
  JS.startOfDay tz t < JS.startOfDay tz u <-> JS.localDay tz t < JS.localDay tz u.
Proof.
  rewrite !startOfDay_localDay. unfold JS.msPerDay. lia.
Qed.

Lemma startOfDay_le_self (t : Z) : JS.startOfDay tz t <= t.
Proof.
  unfold JS.startOfDay.
  pose proof (Z.mod_pos_bound (t + tz) JS.msPerDay) as B.
  unfold JS.msPerDay in *. lia.
Qed.

Lemma getDay_range (t d : Z) :
  JS.getDay tz (JS.Instant t) = Some d -> 0 <= d < 7.
Proof.
  simpl. intros E. injection E as <-. apply Z.mod_pos_bound. lia.
Qed.

End ClockFacts.

Lemma strictEq_Some (d n : Z) : JS.strictEq (Some d) n = (d =? n).
Proof. reflexivity. Qed.

Lemma includes_In (arr : list string) (s : string) :
  JS.includes arr s = true <-> In s arr.
Proof.
  unfold JS.includes. rewrite existsb_exists. split.
  - intros [x [Hin Heq]]. apply String.eqb_eq in Heq. now subst.
  - intros Hin. exists s. split; [assumption | apply String.eqb_refl].
Qed.

Lemma includes_false (arr : list string) (s : string) :
  JS.includes arr s = false <-> ~ In s arr.
Proof.
  rewrite <- includes_In. destruct (JS.includes arr s); intuition congruence.
Qed.

(** Trimming twice is trimming once. *)
Lemma trimStart_startsClean (s : string) : startsClean (JS.trimStart s).
Proof.
  induction s as [| c r IH]; simpl; [exact I |].
  destruct (JS.isSpace c) eqn:E; [exact IH | exact E].
Qed.

Lemma trimStart_clean (s : string) : startsClean s -> JS.trimStart s = s.
Proof.
  destruct s as [| c r]; simpl; [reflexivity |]. now intros ->.
Qed.

Lemma trimEnd_startsClean (s : string) :
  startsClean s -> startsClean (JS.trimEnd s).
Proof.
  destruct s as [| c r]; simpl; [trivial |]. intros E.
  destruct (JS.trimEnd r); [rewrite E |]; exact E.
Qed.

Lemma trimEnd_idempotent (s : string) : JS.trimEnd (JS.trimEnd s) = JS.trimEnd s.
Proof.
  induction s as [| c r IH]; simpl; [reflexivity |].
  destruct (JS.trimEnd r) as [| c' r'] eqn:E.
  - destruct (JS.isSpace c) eqn:Ec; simpl; [reflexivity | now rewrite Ec].
  - simpl in IH |- *. rewrite IH. reflexivity.
Qed.

Lemma trim_idempotent (s : string) : JS.trim (JS.trim s) = JS.trim s.
Proof.
  unfold JS.trim.
  rewrite (trimStart_clean (JS.trimEnd (JS.trimStart s))).
  - apply trimEnd_idempotent.
  - apply trimEnd_startsClean, trimStart_startsClean.
Qed.

Lemma saturdaySlots_not_afternoon (s : string) :
  In s saturdaySlots -> JS.includes afternoonSlots s = false.
Proof.
  intros H. simpl in H.
  repeat (destruct H as [<- | H]; [reflexivity |]). contradiction.
Qed.

(** ** Slot policy *)

Section PolicyFacts.

Variable tz : Z.
Variable Date_parse : string -> option Z.

Abbreviation validate := (validateAppointmentSlot tz Date_parse).

(** The evaluator, rule by rule, for a valid date. *)
Lemma validate_Instant (now : Z) (init : JS.DateInit) (slot : string) (t : Z) :
  JS.newDate Date_parse init = JS.Instant t ->
  validate now init slot =
    if (JS.localDay tz t + 4) mod 7 =? 0 then
      {| isValid := false;
         message := Some "Appointments are not available on Sundays" |}
    else if (((JS.localDay tz t + 4) mod 7 =? 6)
             && JS.includes afternoonSlots slot)%bool then
      {| isValid := false;
         message := Some "On Saturdays, appointments are only available until 1:00 PM" |}
    else if JS.startOfDay tz t <? JS.startOfDay tz now then
      {| isValid := false;
         message := Some "Cannot book appointments for past dates" |}
    else {| isValid := true; message := None |}.
Proof.
  intros E. unfold validate, validateAppointmentSlot. rewrite E. reflexivity.
Qed.

(** An invalid date passes every rule: all three comparisons are false on
    NaN. *)
Lemma validate_InvalidDate (now : Z) (init : JS.DateInit) (slot : string) :
  JS.newDate Date_parse init = JS.InvalidDate ->
  validate now init slot = {| isValid := true; message := None |}.
Proof.
  intros E. unfold validate, validateAppointmentSlot. rewrite E. reflexivity.
Qed.

(** C3 (as amended): a date whose day of the week is Sunday is rejected with
    the Sunday reason, which in the code is the text "Appointments are not
    available on Sundays" without a final full stop, whatever the slot and
    whatever the current time; so a Sunday in the past reports the Sunday
    reason too, not the past-date reason. *)
Theorem sunday_rejected_first
    (now : Z) (appointmentDate : JS.DateInit) (timeSlot : string) :
  JS.getDay tz (JS.newDate Date_parse appointmentDate) = Some 0 ->
  validate now appointmentDate timeSlot =
    {| isValid := false;
       message := Some "Appointments are not available on Sundays" |}.
Proof.
  intros H. unfold validate, validateAppointmentSlot. cbv zeta.
  rewrite H. reflexivity.
Qed.

(** C4 (as amended): on a date whose day of the week is Saturday the two
    afternoon slots are rejected with the Saturday reason, which in the code
    is the text "On Saturdays, appointments are only available until 1:00
    PM" without a final full stop; the four slots from 9:00 AM to 1:00 PM
    are allowed whenever the date's day is not before today's. *)
Theorem saturday_afternoon_rejected
    (now : Z) (appointmentDate : JS.DateInit) (timeSlot : string) (t : Z) :
  JS.newDate Date_parse appointmentDate = JS.Instant t ->
  JS.getDay tz (JS.Instant t) = Some 6 ->
  (In timeSlot afternoonSlots ->
   validate now appointmentDate timeSlot =
     {| isValid := false;
        message := Some "On Saturdays, appointments are only available until 1:00 PM" |})
  /\ (In timeSlot saturdaySlots ->
      JS.startOfDay tz now <= JS.startOfDay tz t ->
      validate now appointmentDate timeSlot =
        {| isValid := true; message := None |}).
Proof.
  intros E Hday. simpl in Hday. injection Hday as Hday.
  rewrite (validate_Instant now _ timeSlot _ E), Hday. simpl (6 =? 0).
  simpl (6 =? 6). cbv iota. split.
  - intros Hin. apply includes_In in Hin. rewrite Hin. reflexivity.
  - intros Hin Hle. rewrite (saturdaySlots_not_afternoon _ Hin).
    simpl. destruct (Z.ltb_spec (JS.startOfDay tz t) (JS.startOfDay tz now));
      [lia | reflexivity].
Qed.

(** C5 (as amended): for a date that is not a Sunday (and, on a Saturday,
    a slot that is not an afternoon slot), with the date and the current
    time both truncated to the local midnight of their day: a date strictly
    before today is rejected with the past-date reason, which in the code
    is the text "Cannot book appointments for past dates" without a final
    full stop; today's date, and any later one, is allowed. *)
Theorem past_date_rejected
    (now : Z) (appointmentDate : JS.DateInit) (timeSlot : string) (t : Z) :
  JS.newDate Date_parse appointmentDate = JS.Instant t ->
  JS.getDay tz (JS.Instant t) <> Some 0 ->
  (JS.getDay tz (JS.Instant t) = Some 6 -> ~ In timeSlot afternoonSlots) ->
  (JS.startOfDay tz t < JS.startOfDay tz now ->
   validate now appointmentDate timeSlot =
     {| isValid := false;
        message := Some "Cannot book appointments for past dates" |})
  /\ (JS.startOfDay tz t = JS.startOfDay tz now ->
      validate now appointmentDate timeSlot =
        {| isValid := true; message := None |})
  /\ (JS.startOfDay tz now <= JS.startOfDay tz t ->
      validate now appointmentDate timeSlot =
        {| isValid := true; message := None |}).
Proof.
  intros E Hsun Hsat. unfold JS.getDay in Hsun, Hsat.
  rewrite (validate_Instant now _ timeSlot _ E).
  destruct (Z.eqb_spec ((JS.localDay tz t + 4) mod 7) 0) as [H0 | H0];
    [exfalso; apply Hsun; now rewrite H0 |].
  assert (Hrule2 :
    (((JS.localDay tz t + 4) mod 7 =? 6) && JS.includes afternoonSlots timeSlot)%bool
    = false).
  { destruct (Z.eqb_spec ((JS.localDay tz t + 4) mod 7) 6) as [H6 | H6];
      [| reflexivity].
    rewrite andb_true_l. apply includes_false, Hsat. now rewrite H6. }
  rewrite Hrule2.
  repeat split; intros H;
    destruct (Z.ltb_spec (JS.startOfDay tz t) (JS.startOfDay tz now));
    solve [reflexivity | lia].
Qed.

(** The verdict of the evaluator always comes with its reason, and an
    accepted pair comes without one. *)
Lemma validate_message (now : Z) (init : JS.DateInit) (slot : string) :
  isValid (validate now init slot) = false <->
  message (validate now init slot) <> None.
Proof.
  unfold validate, validateAppointmentSlot. cbv zeta.
  repeat match goal with
         | |- context [if ?c then _ else _] => destruct c
         end; simpl; split; congruence.
Qed.

End PolicyFacts.

(** ** Storage layer *)

Lemma onDateSlot_slotKey (t : Z) (slot : string) (a : Appointment.t) :
  onDateSlot t slot a = true <-> slotKey a = (t, slot).
Proof.
  unfold onDateSlot, onDate, slotKey.
  rewrite andb_true_iff, Z.eqb_eq, String.eqb_eq.
  split; [intros [-> ->]; reflexivity | intros E; injection E; auto].
Qed.

Lemma find_onDateSlot_None (ledger : Ledger) (t : Z) (slot : string) :
  find (onDateSlot t slot) ledger = None <->
  ~ In (t, slot) (map slotKey ledger).
Proof.
  induction ledger as [| a rest IH]; simpl.
  - tauto.
  - destruct (onDateSlot t slot a) eqn:M.
    + apply onDateSlot_slotKey in M. split; [discriminate |].
      intros H. exfalso. apply H. now left.
    + rewrite IH. split.
      * intros H [E | E]; [| tauto].
        apply onDateSlot_slotKey in E. congruence.
      * tauto.
Qed.

Lemma find_onDateSlot_Some (ledger : Ledger) (t : Z) (slot : string) :
  (exists a, In a ledger /\ slotKey a = (t, slot)) ->
  exists b, find (onDateSlot t slot) ledger = Some b.
Proof.
  intros [a [Hin Hkey]].
  destruct (find (onDateSlot t slot) ledger) as [b |] eqn:F; [now exists b |].
  apply find_onDateSlot_None in F. exfalso. apply F.
  rewrite <- Hkey. now apply in_map.
Qed.

Lemma save_fresh (ledger : Ledger) (a : Appointment.t) :
  schemaValidation a = [] ->
  (forall b, In b ledger -> Appointment.id b <> Appointment.id a) ->
  save ledger a = inl (ledger ++ [a]).
Proof.
  intros Hs Hid. unfold save. rewrite Hs.
  destruct (existsb _ ledger) eqn:E; [exfalso | reflexivity].
  apply existsb_exists in E. destruct E as [b [Hin Hb]].
  apply String.eqb_eq in Hb. exact (Hid b Hin Hb).
Qed.

Lemma save_cases (ledger : Ledger) (a : Appointment.t) :
  (save ledger a = inl (ledger ++ [a])
   /\ schemaValidation a = []
   /\ forall b, In b ledger -> Appointment.id b <> Appointment.id a)
  \/ (exists error, save ledger a = inr error).
Proof.
  unfold save.
  destruct (schemaValidation a) eqn:V; [| right; eexists; reflexivity].
  destruct (existsb _ ledger) eqn:E; [right; eexists; reflexivity | left].
  split; [reflexivity | split; [reflexivity |]].
  intros b Hin Hid.
  assert (existsb (fun b => String.eqb (Appointment.id b) (Appointment.id a)) ledger
          = true) as C.
  { apply existsb_exists. exists b. split; [assumption |].
    now apply String.eqb_eq. }
  congruence.
Qed.

Lemma SlotsUnique_snoc (ledger : Ledger) (a : Appointment.t) :
  SlotsUnique ledger ->
  ~ In (slotKey a) (map slotKey ledger) ->
  SlotsUnique (ledger ++ [a]).
Proof.
  unfold SlotsUnique. intros Hnd Hnew. rewrite map_app. simpl.
  apply (Permutation_NoDup (Permutation_cons_append _ _)).
  now constructor.
Qed.

(** ** Booking route *)

Section BookingFacts.

Variable tz : Z.
Variable Date_parse : string -> option Z.
Variable isISO8601 : string -> bool.

Abbreviation validate := (validateAppointmentSlot tz Date_parse).
Abbreviation post := (postAppointments tz Date_parse isISO8601).

Lemma newDate_toDate (body : Body.t) :
  JS.newDate Date_parse (toDate Date_parse (Body.appointmentDate body))
  = JS.Instant (bookedInstant Date_parse body).
Proof.
  unfold toDate, bookedInstant.
  destruct (Date_parse (Body.appointmentDate body)); reflexivity.
Qed.

Abbreviation drafted := (draft Date_parse).

Lemma slotKey_draft (now : Z) (uuid : string) (body : Body.t) :
  slotKey (drafted now uuid body)
  = (bookedInstant Date_parse body, Body.timeSlot body).
Proof. reflexivity. Qed.

(** The route, outcome by outcome. *)
Lemma post_unfold (now : Z) (uuid : string) (body : Body.t) (ledger : Ledger) :
  post now uuid body ledger =
    match appointmentValidation isISO8601 body with
    | _ :: _ =>
        (BadRequest (Some "Validation failed")
           (appointmentValidation isISO8601 body), ledger)
    | [] =>
        let verdict :=
          validate now (toDate Date_parse (Body.appointmentDate body))
            (Body.timeSlot body) in
        if isValid verdict then
          match find (onDateSlot (bookedInstant Date_parse body)
                        (Body.timeSlot body)) ledger with
          | Some _ => (duplicateBooking, ledger)
          | None =>
              match save ledger (drafted now uuid body) with
              | inl ledger' => (Ok (toView (drafted now uuid body)), ledger')
              | inr error =>
                  (ServerError "Failed to create appointment: " error, ledger)
              end
          end
        else (BadRequest (message verdict) [], ledger)
    end.
Proof.
  unfold post, postAppointments, validate. cbv zeta.
  destruct (appointmentValidation isISO8601 body); [| reflexivity].
  destruct (isValid _); [| reflexivity]. cbn [negb].
  unfold findOne. rewrite newDate_toDate. cbn [castDate].
  destruct (find _ ledger); reflexivity.
Qed.

Lemma check_nil (ok : bool) (path msg : string) :
  check ok path msg = [] -> ok = true.
Proof. destruct ok; [reflexivity | discriminate]. Qed.



(** A successful booking went through every check and appended exactly
    its own document. *)
Lemma post_Ok_inv
    (now : Z) (uuid : string) (body : Body.t) (ledger ledger' : Ledger)
    (v : View.t) :
  post now uuid body ledger = (Ok v, ledger') ->
  appointmentValidation isISO8601 body = []
  /\ isValid (validate now (toDate Date_parse (Body.appointmentDate body))
                (Body.timeSlot body)) = true
  /\ ~ In (bookedInstant Date_parse body, Body.timeSlot body)
          (map slotKey ledger)
  /\ (forall b, In b ledger -> Appointment.id b <> uuid)
  /\ schemaValidation (drafted now uuid body) = []
  /\ v = toView (drafted now uuid body)
  /\ ledger' = ledger ++ [drafted now uuid body].
Proof.
  rewrite post_unfold. cbv zeta.
  destruct (appointmentValidation isISO8601 body); [| discriminate].
  destruct (isValid _); [| discriminate].
  destruct (find _ ledger) eqn:F; [discriminate |].
  apply find_onDateSlot_None in F.
  destruct (save_cases ledger (drafted now uuid body)) as [(S & Hs & Hid) | [e S]];
    rewrite S; [| discriminate].
  intros H. injection H as <- <-. repeat split; auto.
Qed.

(** A booking that does not succeed leaves the ledger as it was. *)
Lemma post_failure_keeps_ledger
    (now : Z) (uuid : string) (body : Body.t) (ledger : Ledger) :
  (exists v, post now uuid body ledger
             = (Ok v, ledger ++ [drafted now uuid body]))
  \/ snd (post now uuid body ledger) = ledger.
Proof.
  rewrite post_unfold. cbv zeta.
  destruct (appointmentValidation isISO8601 body); [| now right].
  destruct (isValid _); [| now right].
  destruct (find _ ledger); [now right |].
  destruct (save_cases ledger (drafted now uuid body)) as [(S & _) | [e S]];
    rewrite S.
  - left. eexists. reflexivity.
  - now right.
Qed.

Lemma post_duplicate
    (now : Z) (uuid : string) (body : Body.t) (ledger : Ledger) :
  appointmentValidation isISO8601 body = [] ->
  isValid (validate now (toDate Date_parse (Body.appointmentDate body))
             (Body.timeSlot body)) = true ->
  (exists a, In a ledger
             /\ slotKey a = (bookedInstant Date_parse body, Body.timeSlot body)) ->
  post now uuid body ledger = (duplicateBooking, ledger).
Proof.
  intros Hv Hp Hex. rewrite post_unfold, Hv. cbv zeta. rewrite Hp.
  destruct (find_onDateSlot_Some _ _ _ Hex) as [b F]. now rewrite F.
Qed.

Lemma post_rejected_by_policy
    (now : Z) (uuid : string) (body : Body.t) (ledger : Ledger) :
  appointmentValidation isISO8601 body = [] ->
  isValid (validate now (toDate Date_parse (Body.appointmentDate body))
             (Body.timeSlot body)) = false ->
  post now uuid body ledger =
    (BadRequest
       (message (validate now (toDate Date_parse (Body.appointmentDate body))
                   (Body.timeSlot body))) [],
     ledger).
Proof.
  intros Hv Hp. rewrite post_unfold, Hv. cbv zeta. now rewrite Hp.
Qed.

Lemma post_repeat
    (now : Z) (uuid : string) (body : Body.t) (ledger ledger' : Ledger)
    (v : View.t) :
  post now uuid body ledger = (Ok v, ledger') ->
  forall now' uuid',
    post now' uuid' body ledger' =
      if isValid (validate now' (toDate Date_parse (Body.appointmentDate body))
                    (Body.timeSlot body))
      then (duplicateBooking, ledger')
      else (BadRequest
              (message (validate now' (toDate Date_parse (Body.appointmentDate body))
                          (Body.timeSlot body))) [],
            ledger').
Proof.
  intros H now' uuid'.
  destruct (post_Ok_inv _ _ _ _ _ _ H) as (Hv & _ & _ & _ & _ & _ & ->).
  destruct (isValid (validate now' _ _)) eqn:Hp.
  - apply post_duplicate; [assumption | assumption |].
    exists (drafted now uuid body). split; [| apply slotKey_draft].
    apply in_or_app. right. now left.
  - now apply post_rejected_by_policy.
Qed.

Lemma post_keeps_SlotsUnique
    (now : Z) (uuid : string) (body : Body.t) (ledger : Ledger) :
  SlotsUnique ledger -> SlotsUnique (snd (post now uuid body ledger)).
Proof.
  intros U.
  destruct (post_failure_keeps_ledger now uuid body ledger) as [[v H] | H].
  - rewrite H. simpl.
    destruct (post_Ok_inv _ _ _ _ _ _ H) as (_ & _ & Hfree & _).
    apply SlotsUnique_snoc; [assumption |]. now rewrite slotKey_draft.
  - now rewrite H.
Qed.

Lemma serve_keeps_SlotsUnique (requests : list Request) (ledger : Ledger) :
  SlotsUnique ledger ->
  SlotsUnique (serve tz Date_parse isISO8601 requests ledger).
Proof.
  revert ledger. induction requests as [| r rest IH]; intros ledger U.
  - exact U.
  - simpl. apply IH. now apply post_keeps_SlotsUnique.
Qed.

(** C1 (as amended): for every ledger and every booking request that passes
    input validation and that the slot policy allows, if some stored record,
    whatever its status, has exactly the requested date and time slot, the
    booking fails with the duplicate-booking error and the ledger is
    unchanged (a request the policy rejects fails with the policy's reason
    instead); after a successful booking the same request, repeated at the
    same time, fails with the duplicate-booking error, and repeated at any
    other time it fails without storing anything; so bookings served one
    after the other never store two records with the same date and time
    slot. *)
Theorem duplicate_booking_rejected :
  (forall now uuid body ledger,
      appointmentValidation isISO8601 body = [] ->
      isValid (validate now (toDate Date_parse (Body.appointmentDate body))
                 (Body.timeSlot body)) = true ->
      (exists a, In a ledger
                 /\ slotKey a = (bookedInstant Date_parse body, Body.timeSlot body)) ->
      post now uuid body ledger = (duplicateBooking, ledger))
  /\ (forall now uuid body ledger v ledger',
         post now uuid body ledger = (Ok v, ledger') ->
         (forall uuid', post now uuid' body ledger' = (duplicateBooking, ledger'))
         /\ (forall now' uuid', exists reason,
                post now' uuid' body ledger' = (BadRequest (Some reason) [], ledger')))
  /\ (forall requests ledger,
         SlotsUnique ledger ->
         SlotsUnique (serve tz Date_parse isISO8601 requests ledger)).
Proof.
  split; [exact post_duplicate | split; [| exact serve_keeps_SlotsUnique]].
  intros now uuid body ledger v ledger' H. split.
  - intros uuid'. rewrite (post_repeat _ _ _ _ _ _ H).
    destruct (post_Ok_inv _ _ _ _ _ _ H) as (_ & -> & _). reflexivity.
  - intros now' uuid'. rewrite (post_repeat _ _ _ _ _ _ H).
    destruct (isValid _) eqn:Hp.
    + eexists. reflexivity.
    + apply validate_message in Hp.
      destruct (message _) as [reason |]; [| congruence].
      exists reason. reflexivity.
Qed.

End BookingFacts.

(** ** Listing route *)

Lemma insertByDate_perm (a : Appointment.t) (l : list Appointment.t) :
  Permutation (a :: l) (insertByDate a l).
Proof.
  induction l as [| b r IH]; simpl.
  - apply Permutation_refl.
  - destruct (Appointment.appointmentDate a <=? Appointment.appointmentDate b).
    + apply Permutation_refl.
    + eapply perm_trans; [apply perm_swap |]. now apply perm_skip.
Qed.

Lemma sortByDate_perm (l : list Appointment.t) : Permutation l (sortByDate l).
Proof.
  induction l as [| a r IH]; simpl.
  - constructor.
  - eapply perm_trans; [apply perm_skip, IH | apply insertByDate_perm].
Qed.

Lemma insertByDate_sorted (a : Appointment.t) (l : list Appointment.t) :
  StronglySorted byDate l -> StronglySorted byDate (insertByDate a l).
Proof.
  induction l as [| b r IH]; simpl; intros S.
  - repeat constructor.
  - inversion S as [| ? ? Sr Hb]; subst.
    destruct (Z.leb_spec (Appointment.appointmentDate a)
                         (Appointment.appointmentDate b)) as [Hle | Hgt].
    + constructor; [assumption |].
      constructor; [exact Hle |].
      eapply Forall_impl; [| exact Hb].
      intros c Hc. unfold byDate in *. lia.
    + constructor; [now apply IH |].
      apply (Permutation_Forall (insertByDate_perm a r)).
      constructor; [unfold byDate; lia | assumption].
Qed.

Lemma sortByDate_sorted (l : list Appointment.t) :
  StronglySorted byDate (sortByDate l).
Proof.
  induction l as [| a r IH]; simpl.
  - constructor.
  - now apply insertByDate_sorted.
Qed.

(** Both halves of a sorted list are sorted, and the front half lies
    before the back half. *)
Lemma StronglySorted_app_inv {A : Type} (R : A -> A -> Prop) (l1 l2 : list A) :
  StronglySorted R (l1 ++ l2) ->
  StronglySorted R l1
  /\ StronglySorted R l2
  /\ forall a b, In a l1 -> In b l2 -> R a b.
Proof.
  induction l1 as [| x r IH]; simpl; intros S.
  - repeat split; [constructor | assumption | intros a b []].
  - inversion S as [| ? ? Sr Hx]; subst.
    destruct (IH Sr) as (S1 & S2 & H12).
    apply Forall_app in Hx. destruct Hx as [Hx1 Hx2].
    repeat split.
    + now constructor.
    + assumption.
    + intros a b [<- | Ha] Hb.
      * rewrite Forall_forall in Hx2. now apply Hx2.
      * now apply H12.
Qed.

(** C7: the list-all operation returns the stored records in ascending
    order of appointment date (the newest date last), at most 1000 of them:
    every stored record when there are no more than 1000, and otherwise the
    1000 with the earliest dates; the ledger is left as it was. *)
Theorem list_all_sorted_capped (ledger : Ledger) :
  exists listed omitted,
    getAppointments ledger = (Ok (map toView listed), ledger)
    /\ StronglySorted byDate listed
    /\ (List.length listed <= 1000)%nat
    /\ Permutation (listed ++ omitted) ledger
    /\ (forall a b, In a listed -> In b omitted -> byDate a b)
    /\ ((List.length ledger <= 1000)%nat -> omitted = []).
Proof.
  exists (firstn 1000 (sortByDate ledger)), (skipn 1000 (sortByDate ledger)).
  pose proof (sortByDate_sorted ledger) as S.
  rewrite <- (firstn_skipn 1000 (sortByDate ledger)) in S.
  destruct (StronglySorted_app_inv _ _ _ S) as (S1 & _ & H12).
  repeat split.
  - exact S1.
  - apply firstn_le_length.
  - rewrite firstn_skipn. apply Permutation_sym, sortByDate_perm.
  - exact H12.
  - intros Hlen. apply skipn_all2.
    rewrite <- (Permutation_length (sortByDate_perm ledger)). exact Hlen.
Qed.

Lemma listed_in_ledger (ledger : Ledger) (a : Appointment.t) :
  In a (findSortedLimited ledger) -> In a ledger.
Proof.
  intros H. unfold findSortedLimited in H.
  apply (Permutation_in _ (Permutation_sym (sortByDate_perm ledger))).
  rewrite <- (firstn_skipn 1000 (sortByDate ledger)).
  apply in_or_app. now left.
Qed.

Lemma ledger_in_listed (ledger : Ledger) (a : Appointment.t) :
  (List.length ledger <= 1000)%nat -> In a ledger -> In a (findSortedLimited ledger).
Proof.
  intros Hlen H. unfold findSortedLimited.
  rewrite firstn_all2.
  - now apply (Permutation_in _ (sortByDate_perm ledger)).
  - now rewrite <- (Permutation_length (sortByDate_perm ledger)).
Qed.

(** ** Round trip *)

Section RoundTripFacts.

Variable tz : Z.
Variable Date_parse : string -> option Z.
Variable isISO8601 : string -> bool.

Abbreviation post := (postAppointments tz Date_parse isISO8601).

(** C8 (as amended): the appointment returned by a successful booking
    carries the submitted sex, age and time slot exactly, the submitted name
    and complaint with leading and trailing white space removed, and the
    instant that the submitted date denotes; it is the one record appended to
    the ledger, every record with its identifier that the list operation
    returns afterwards is equal to it, and the list operation does return it
    when the ledger held fewer than 1000 records. *)
Theorem booking_round_trip
    (now : Z) (uuid : string) (body : Body.t) (ledger ledger' : Ledger)
    (v : View.t) :
  post now uuid body ledger = (Ok v, ledger') ->
  (Appointment.name (View.doc v) = JS.trim (Body.name body)
   /\ Appointment.sex (View.doc v) = Body.sex body
   /\ Appointment.age (View.doc v) = Body.age body
   /\ Appointment.complaint (View.doc v) = JS.trim (Body.complaint body)
   /\ JS.Instant (Appointment.appointmentDate (View.doc v))
      = JS.newDate Date_parse (toDate Date_parse (Body.appointmentDate body))
   /\ Appointment.timeSlot (View.doc v) = Body.timeSlot body)
  /\ ledger' = ledger ++ [View.doc v]
  /\ (forall listed v',
         fst (getAppointments ledger') = Ok listed ->
         In v' listed ->
         Appointment.id (View.doc v') = uuid ->
         v' = v)
  /\ ((List.length ledger < 1000)%nat ->
      exists listed,
        fst (getAppointments ledger') = Ok listed /\ In v listed).
Proof.
  intros H.
  destruct (post_Ok_inv _ _ _ _ _ _ _ _ _ H) as (_ & _ & _ & Hid & _ & -> & ->).
  split; [| split; [| split]].
  - cbn. rewrite newDate_toDate, !trim_idempotent. repeat split; reflexivity.
  - reflexivity.
  - intros listed v' L Hin Huuid. cbn in L. injection L as <-.
    apply in_map_iff in Hin. destruct Hin as [a [<- Ha]].
    apply listed_in_ledger in Ha. apply in_app_or in Ha.
    destruct Ha as [Ha | [<- | []]]; [| reflexivity].
    exfalso. exact (Hid a Ha Huuid).
  - intros Hlen. eexists. split; [reflexivity |].
    apply in_map. apply ledger_in_listed.
    + rewrite length_app. simpl. lia.
    + apply in_or_app. right. now left.
Qed.

End RoundTripFacts.

(** ** Availability route *)

Lemma Subseq_refl {A : Type} (l : list A) : Subseq l l.
Proof. induction l; [constructor | apply Subseq_take; assumption]. Qed.

Lemma Subseq_filter {A : Type} (keep : A -> bool) (l : list A) :
  Subseq (filter keep l) l.
Proof.
  induction l as [| x r IH]; simpl.
  - constructor.
  - destruct (keep x); [apply Subseq_take | apply Subseq_skip]; assumption.
Qed.

Lemma Subseq_trans {A : Type} (l1 l2 l3 : list A) :
  Subseq l1 l2 -> Subseq l2 l3 -> Subseq l1 l3.
Proof.
  intros H12 H23. revert l1 H12.
  induction H23 as [| x l2 l3 H23 IH | x l2 l3 H23 IH]; intros l1 H12.
  - assumption.
  - constructor. now apply IH.
  - inversion H12; subst.
    + apply Subseq_skip. now apply IH.
    + apply Subseq_take. now apply IH.
Qed.

Lemma Subseq_minus (xs ys zs : list string) :
  Subseq xs zs -> Subseq (minus xs ys) zs.
Proof.
  intros H. eapply Subseq_trans; [apply Subseq_filter | exact H].
Qed.

Lemma In_minus (xs ys : list string) (s : string) :
  In s (minus xs ys) <-> In s xs /\ ~ In s ys.
Proof.
  unfold minus. rewrite filter_In, negb_true_iff, includes_false. tauto.
Qed.

Lemma minus_nil_r (xs : list string) : minus xs [] = xs.
Proof.
  unfold minus. induction xs as [| x r IH]; simpl;
    [reflexivity | f_equal; exact IH].
Qed.

(** The slots the route starts from are the specification's theoretical
    slots of the day. *)
Lemma specTheoreticalSlots_cases (dayOfWeek : option Z) :
  specTheoreticalSlots dayOfWeek =
    if JS.strictEq dayOfWeek 0 then []
    else if JS.strictEq dayOfWeek 6 then saturdaySlots else allSlots.
Proof.
  unfold specTheoreticalSlots.
  destruct (JS.strictEq dayOfWeek 0); [| rewrite minus_nil_r];
    destruct (JS.strictEq dayOfWeek 6); reflexivity.
Qed.

Section AvailabilityFacts.

Variable tz : Z.
Variable Date_parse : string -> option Z.

Abbreviation validate := (validateAppointmentSlot tz Date_parse).
Abbreviation slotsFor := (getAvailableSlots tz Date_parse).

Lemma slotsFor_Instant (text : string) (t : Z) (ledger : Ledger) :
  text <> "" ->
  Date_parse text = Some t ->
  slotsFor (Some text) ledger =
    (Ok {| Slots.available_slots := specAvailableSlots tz ledger t;
           Slots.message :=
             if JS.strictEq (JS.getDay tz (JS.Instant t)) 0
             then Some "No appointments available on Sundays"
             else None |},
     ledger).
Proof.
  intros Hne Hparse. unfold getAvailableSlots.
  destruct text as [| c rest]; [congruence |].
  cbv zeta. unfold JS.newDate. rewrite Hparse.
  unfold specAvailableSlots. rewrite specTheoreticalSlots_cases.
  destruct (JS.strictEq (JS.getDay tz (JS.Instant t)) 0); [reflexivity |].
  reflexivity.
Qed.

(** A catalog slot is theoretically available on a day exactly when the
    evaluator accepts it with that day taken as today, that is, with the
    past-date rule out of play. *)
Lemma theoretical_iff_policy (t : Z) (slot : string) :
  In slot (specTheoreticalSlots (JS.getDay tz (JS.Instant t))) <->
  In slot allSlots
  /\ isValid (validate t (JS.FromDate (JS.Instant t)) slot) = true.
Proof.
  rewrite (validate_Instant tz Date_parse t (JS.FromDate (JS.Instant t)) slot t
             eq_refl).
  rewrite Z.ltb_irrefl.
  unfold specTheoreticalSlots. rewrite !In_minus. cbn [JS.getDay JS.strictEq].
  pose proof (@in_nil _ slot) as Hnil.
  destruct ((JS.localDay tz t + 4) mod 7 =? 0).
  - cbn [isValid]. intuition discriminate.
  - destruct ((JS.localDay tz t + 4) mod 7 =? 6); cbn [andb].
    + destruct (JS.includes afternoonSlots slot) eqn:I; cbn [isValid].
      * apply includes_In in I. intuition discriminate.
      * apply includes_false in I. intuition.
    + cbn [isValid]. intuition.
Qed.

(** C6: for every date the availability query returns the theoretical slot
    set of the day (the six catalog slots; none of them on a Sunday, where
    the reply is the empty sequence with an explanatory note; without the
    two afternoon slots on a Saturday) minus the slots of the appointments
    stored for that date, in the catalog's order; the past-date rule plays
    no part: a catalog slot is listed exactly when it is not taken and the
    evaluator accepts it with the queried day taken as today. *)
Theorem available_slots_listing (text : string) (t : Z) (ledger : Ledger) :
  text <> "" ->
  Date_parse text = Some t ->
  slotsFor (Some text) ledger =
    (Ok {| Slots.available_slots := specAvailableSlots tz ledger t;
           Slots.message :=
             if JS.strictEq (JS.getDay tz (JS.Instant t)) 0
             then Some "No appointments available on Sundays"
             else None |},
     ledger)
  /\ Subseq (specAvailableSlots tz ledger t) allSlots
  /\ (JS.getDay tz (JS.Instant t) = Some 0 -> specAvailableSlots tz ledger t = [])
  /\ (forall slot,
         In slot (specAvailableSlots tz ledger t) <->
         In slot allSlots
         /\ isValid (validate t (JS.FromDate (JS.Instant t)) slot) = true
         /\ ~ In slot (listForDate ledger t)).
Proof.
  intros Hne Hparse. split; [now apply slotsFor_Instant |].
  split; [| split].
  - unfold specAvailableSlots, specTheoreticalSlots.
    repeat apply Subseq_minus. apply Subseq_refl.
  - intros Hsun. unfold specAvailableSlots.
    rewrite specTheoreticalSlots_cases, Hsun. reflexivity.
  - intros slot. unfold specAvailableSlots.
    rewrite In_minus, theoretical_iff_policy. tauto.
Qed.

(** C10: when the [appointment_date] parameter is absent the availability
    query fails with the error "appointment_date query parameter is
    required"; the reply does not depend on the ledger or on the clock, and
    the ledger is unchanged. *)
Theorem missing_date_parameter (ledger : Ledger) :
  slotsFor None ledger =
    (BadRequest (Some "appointment_date query parameter is required") [],
     ledger)
  /\ forall tz' Date_parse' ledger',
       fst (getAvailableSlots tz' Date_parse' None ledger')
       = fst (slotsFor None ledger).
Proof. split; reflexivity. Qed.

(** The query parameter present but empty is treated as absent. *)
Lemma empty_date_parameter (ledger : Ledger) :
  slotsFor (Some "") ledger = slotsFor None ledger.
Proof. reflexivity. Qed.


End AvailabilityFacts.

(** ** Input shape *)

Section ShapeFacts.

Variable tz : Z.
Variable Date_parse : string -> option Z.
Variable isISO8601 : string -> bool.

(** The booking route turns away a malformed date or a slot outside the
    catalog before the policy and the ledger are consulted. *)
Lemma post_rejects_malformed
    (now : Z) (uuid : string) (body : Body.t) (ledger : Ledger) :
  isISO8601 (Body.appointmentDate body) = false
  \/ ~ In (Body.timeSlot body) allSlots ->
  exists errors,
    errors <> []
    /\ postAppointments tz Date_parse isISO8601 now uuid body ledger
       = (BadRequest (Some "Validation failed") errors, ledger).
Proof.
  intros H. unfold postAppointments. cbv zeta.
  assert (appointmentValidation isISO8601 body <> []) as Hne.
  { unfold appointmentValidation. cbv zeta. intros E.
    repeat (apply app_eq_nil in E; destruct E as [? E]).
    destruct H as [H | H].
    - match goal with
      | E' : check (isISO8601 _) _ _ = [] |- _ => rewrite H in E'; discriminate E'
      end.
    - apply includes_false in H. rewrite H in E. discriminate E. }
  destruct (appointmentValidation isISO8601 body) as [| e es] eqn:V;
    [congruence |].
  exists (e :: es). split; [discriminate | reflexivity].
Qed.

(** ** Interleaved requests *)

(** Two steps in a row are the route run without interruption. *)
Lemma run_alone
    (now : Z) (uuid : string) (body : Body.t) (ledger : Ledger) :
  run tz Date_parse isISO8601 [0; 0]%nat [Received now uuid body] ledger =
    (let (reply, ledger') :=
       postAppointments tz Date_parse isISO8601 now uuid body ledger in
     ([Finished reply], ledger')).
Proof.
  unfold run, stepAt, step, postAppointments. cbv zeta.
  destruct (appointmentValidation isISO8601 body); [| reflexivity].
  destruct (negb _); [reflexivity |].
  destruct (findOne ledger _ _) as [[b |] | e]; try reflexivity.
  destruct (castDate _); [| reflexivity].
  destruct (save ledger _); reflexivity.
Qed.

End ShapeFacts.

(** A pair of requests each of which would succeed on its own also
    succeeds when their steps alternate: both pass [findOne] before either
    document is saved, and [save] checks the identifier only. *)
Lemma race_both_succeed
    (tz : Z) (Date_parse : string -> option Z) (isISO8601 : string -> bool)
    (now1 now2 : Z) (uuid1 uuid2 : string) (body : Body.t)
    (ledger ledger1 ledger2 : Ledger) (v1 v2 : View.t) :
  uuid1 <> uuid2 ->
  postAppointments tz Date_parse isISO8601 now1 uuid1 body ledger = (Ok v1, ledger1) ->
  postAppointments tz Date_parse isISO8601 now2 uuid2 body ledger = (Ok v2, ledger2) ->
  run tz Date_parse isISO8601 [0; 1; 0; 1]%nat
    [Received now1 uuid1 body; Received now2 uuid2 body] ledger
  = ([Finished (Ok v1); Finished (Ok v2)], ledger ++ [View.doc v1; View.doc v2])
  /\ slotKey (View.doc v1) = slotKey (View.doc v2).
Proof.
  intros Hne H1 H2.
  destruct (post_Ok_inv _ _ _ _ _ _ _ _ _ H1)
    as (Hv & Hp1 & Hfree & Hid1 & Hs1 & -> & _).
  destruct (post_Ok_inv _ _ _ _ _ _ _ _ _ H2)
    as (_ & Hp2 & _ & Hid2 & Hs2 & -> & _).
  apply find_onDateSlot_None in Hfree.
  split; [| reflexivity].
  assert (forall now uuid,
             isValid (validateAppointmentSlot tz Date_parse now
                        (toDate Date_parse (Body.appointmentDate body))
                        (Body.timeSlot body)) = true ->
             step tz Date_parse isISO8601 (Received now uuid body) ledger
             = (Saving (draft Date_parse now uuid body), ledger)) as Hstep.
  { intros now uuid Hp. unfold step. cbv zeta. rewrite Hv, Hp. cbn [negb].
    unfold findOne. rewrite newDate_toDate. cbn [castDate]. now rewrite Hfree. }
  assert (save ledger (draft Date_parse now1 uuid1 body)
          = inl (ledger ++ [draft Date_parse now1 uuid1 body])) as S1.
  { apply save_fresh; assumption. }
  assert (save (ledger ++ [draft Date_parse now1 uuid1 body])
            (draft Date_parse now2 uuid2 body)
          = inl ((ledger ++ [draft Date_parse now1 uuid1 body])
                 ++ [draft Date_parse now2 uuid2 body])) as S2.
  { apply save_fresh; [assumption |].
    intros b Hin. apply in_app_or in Hin.
    destruct Hin as [Hin | [<- | []]]; [now apply Hid2 | exact Hne]. }
  cbn [run stepAt]. rewrite (Hstep now1 uuid1 Hp1).
  cbn [run stepAt]. rewrite (Hstep now2 uuid2 Hp2).
  cbn [run stepAt step]. rewrite S1.
  cbn [run stepAt step]. rewrite S2, <- app_assoc. reflexivity.
Qed.

(** * Scenarios *)

(** C2 (the code departs from the claim): two requests for Tuesday
    2025-06-10, "9:00–10:00 AM", arrive at an empty ledger and their steps
    alternate.  Both pass the duplicate check, both are saved, both receive
    the success reply, and the ledger ends with two records for the same
    date and time slot. *)
Theorem concurrent_bookings_both_succeed :
  Sample.race [0; 1; 0; 1]%nat
    [Received Sample.tue_2025_06_10_0800 "id-1"
       (Sample.checkup "2025-06-10" "9:00–10:00 AM");
     Received Sample.tue_2025_06_10_0800 "id-2"
       (Sample.checkup "2025-06-10" "9:00–10:00 AM")]
    []
  = ([Finished (Ok (toView (Sample.booked "id-1")));
      Finished (Ok (toView (Sample.booked "id-2")))],
     [Sample.booked "id-1"; Sample.booked "id-2"])
  /\ slotKey (Sample.booked "id-1") = slotKey (Sample.booked "id-2")
  /\ ~ SlotsUnique [Sample.booked "id-1"; Sample.booked "id-2"].
Proof.
  split; [vm_compute; reflexivity | split; [reflexivity |]].
  intros U. unfold SlotsUnique in U. inversion U as [| ? ? Hnotin _]; subst.
  apply Hnotin. now left.
Qed.

(** The same two requests served one after the other: the second is turned
    away. *)
Lemma serial_bookings_one_succeeds :
  Sample.race [0; 0; 1; 1]%nat
    [Received Sample.tue_2025_06_10_0800 "id-1"
       (Sample.checkup "2025-06-10" "9:00–10:00 AM");
     Received Sample.tue_2025_06_10_0800 "id-2"
       (Sample.checkup "2025-06-10" "9:00–10:00 AM")]
    []
  = ([Finished (Ok (toView (Sample.booked "id-1")));
      Finished duplicateBooking],
     [Sample.booked "id-1"]).
Proof. vm_compute. reflexivity. Qed.

(** C9 (the code departs from the claim): the availability query given
    text that is not a date does not answer with an input-shape error.  The
    day-of-week rules run on an invalid date and pass, the ledger is queried,
    and the failure of that query is reported as a server error. *)
Theorem malformed_date_reaches_ledger (ledger : Ledger) :
  Wire.isISO8601 "not-a-date" = false
  /\ JS.newDate Wire.Date_parse (JS.FromText "not-a-date") = JS.InvalidDate
  /\ JS.getDay 0 (JS.newDate Wire.Date_parse (JS.FromText "not-a-date")) = None
  /\ findByDate ledger (JS.newDate Wire.Date_parse (JS.FromText "not-a-date"))
     = inr (CastError "appointmentDate")
  /\ getAvailableSlots 0 Wire.Date_parse (Some "not-a-date") ledger
     = (ServerError "Failed to fetch available slots: "
          (CastError "appointmentDate"),
        ledger).
Proof. repeat split. Qed.

(** Scenario A with the clock of June 2025: Sunday 2024-01-14 lies in the
    past and is refused for being a Sunday. *)
Lemma sunday_rejected_first_witness :
  JS.getDay 0 (JS.newDate Wire.Date_parse (JS.FromText "2024-01-14")) = Some 0
  /\ JS.lt (JS.setHours0 0 (JS.newDate Wire.Date_parse (JS.FromText "2024-01-14")))
           (JS.setHours0 0 (JS.Instant Sample.tue_2025_06_10_0800)) = true
  /\ Sample.policy Sample.tue_2025_06_10_0800 (JS.FromText "2024-01-14")
       "9:00–10:00 AM"
     = {| isValid := false;
          message := Some "Appointments are not available on Sundays" |}.
Proof.
  split; [reflexivity | split; [reflexivity |]].
  apply (sunday_rejected_first 0 Wire.Date_parse). reflexivity.
Defined.

(** The day of the week is read on the server's clock.  Date text denotes
    midnight UTC, so five hours west of UTC the text of Sunday 2024-01-14 is
    an instant of Saturday evening, and a morning slot is accepted for it. *)
Remark sunday_text_west_of_utc :
  JS.getDay (-5 * Sample.hour)
    (JS.newDate Wire.Date_parse (JS.FromText "2024-01-14")) = Some 6
  /\ validateAppointmentSlot (-5 * Sample.hour) Wire.Date_parse
       Sample.wed_2024_01_10_0800 (JS.FromText "2024-01-14") "9:00–10:00 AM"
     = {| isValid := true; message := None |}.
Proof. split; vm_compute; reflexivity. Qed.

(** C3 as stated fails on the text of the reason: the code's message has no
    final full stop. *)
Lemma sunday_reason_counterexample :
  JS.getDay 0 (JS.newDate Wire.Date_parse (JS.FromText "2024-01-14")) = Some 0
  /\ message (Sample.policy Sample.tue_2025_06_10_0800
                (JS.FromText "2024-01-14") "9:00–10:00 AM")
     <> Some "Appointments are not available on Sundays.".
Proof. split; [reflexivity | vm_compute; discriminate]. Qed.

(** Scenarios B and C, asked on Wednesday 2024-01-10 about Saturday
    2024-01-13. *)
Lemma saturday_afternoon_rejected_witness :
  Sample.policy Sample.wed_2024_01_10_0800 (JS.FromText "2024-01-13")
    "3:00–4:00 PM"
  = {| isValid := false;
       message := Some "On Saturdays, appointments are only available until 1:00 PM" |}
  /\ Sample.policy Sample.wed_2024_01_10_0800 (JS.FromText "2024-01-13")
       "9:00–10:00 AM"
     = {| isValid := true; message := None |}.
Proof.
  split.
  - refine (proj1 (saturday_afternoon_rejected 0 Wire.Date_parse
                     Sample.wed_2024_01_10_0800 (JS.FromText "2024-01-13")
                     "3:00–4:00 PM" 1705104000000 eq_refl eq_refl) _).
    simpl. tauto.
  - refine (proj2 (saturday_afternoon_rejected 0 Wire.Date_parse
                     Sample.wed_2024_01_10_0800 (JS.FromText "2024-01-13")
                     "9:00–10:00 AM" 1705104000000 eq_refl eq_refl) _ _).
    + simpl. tauto.
    + vm_compute. discriminate.
Defined.

(** C4 as stated fails on the text of the reason: the code's message has no
    final full stop. *)
Lemma saturday_reason_counterexample :
  JS.getDay 0 (JS.newDate Wire.Date_parse (JS.FromText "2024-01-13")) = Some 6
  /\ message (Sample.policy Sample.wed_2024_01_10_0800
                (JS.FromText "2024-01-13") "3:00–4:00 PM")
     <> Some "On Saturdays, appointments are only available until 1:00 PM.".
Proof. split; [reflexivity | vm_compute; discriminate]. Qed.

(** Tuesday 2025-06-10 asked for on the day itself and on the day after. *)
Lemma past_date_rejected_witness :
  Sample.policy Sample.wed_2025_06_11_0800 (JS.FromText "2025-06-10")
    "9:00–10:00 AM"
  = {| isValid := false;
       message := Some "Cannot book appointments for past dates" |}
  /\ Sample.policy Sample.tue_2025_06_10_0800 (JS.FromText "2025-06-10")
       "9:00–10:00 AM"
     = {| isValid := true; message := None |}.
Proof.
  split.
  - refine (proj1 (past_date_rejected 0 Wire.Date_parse
                     Sample.wed_2025_06_11_0800 (JS.FromText "2025-06-10")
                     "9:00–10:00 AM" 1749513600000 eq_refl _ _) _);
      [vm_compute; discriminate | vm_compute; discriminate |].
    vm_compute. reflexivity.
  - refine (proj1 (proj2 (past_date_rejected 0 Wire.Date_parse
                            Sample.tue_2025_06_10_0800 (JS.FromText "2025-06-10")
                            "9:00–10:00 AM" 1749513600000 eq_refl _ _)) _);
      [vm_compute; discriminate | vm_compute; discriminate |].
    vm_compute. reflexivity.
Defined.

(** C5 as stated fails on the text of the reason: the code's message has no
    final full stop. *)
Lemma past_reason_counterexample :
  JS.getDay 0 (JS.newDate Wire.Date_parse (JS.FromText "2025-06-10")) = Some 2
  /\ JS.startOfDay 0 1749513600000 < JS.startOfDay 0 Sample.wed_2025_06_11_0800
  /\ message (Sample.policy Sample.wed_2025_06_11_0800
                (JS.FromText "2025-06-10") "9:00–10:00 AM")
     <> Some "Cannot book appointments for past dates.".
Proof.
  split; [reflexivity | split; [vm_compute; reflexivity | vm_compute; discriminate]].
Qed.

(** Scenario D: the booking succeeds once and is refused the second time;
    a cancelled record holds its slot just the same. *)
Lemma duplicate_booking_rejected_witness :
  Sample.post Sample.tue_2025_06_10_0800 "id-2"
    (Sample.checkup "2025-06-10" "9:00–10:00 AM") [Sample.booked "id-1"]
  = (duplicateBooking, [Sample.booked "id-1"])
  /\ Sample.post Sample.tue_2025_06_10_0800 "id-2"
       (Sample.checkup "2025-06-10" "9:00–10:00 AM") [Sample.cancelled "id-1"]
     = (duplicateBooking, [Sample.cancelled "id-1"]).
Proof.
  destruct (duplicate_booking_rejected 0 Wire.Date_parse Wire.isISO8601)
    as (Hdup & Hrepeat & _).
  split.
  - apply (proj1 (Hrepeat Sample.tue_2025_06_10_0800 "id-1"
                    (Sample.checkup "2025-06-10" "9:00–10:00 AM") []
                    (toView (Sample.booked "id-1")) [Sample.booked "id-1"]
                    ltac:(vm_compute; reflexivity))).
  - apply Hdup; [vm_compute; reflexivity | vm_compute; reflexivity |].
    exists (Sample.cancelled "id-1"). split; [now left | vm_compute; reflexivity].
Defined.

(** C1 as stated fails for a stored record whose date has passed: the
    record booked on Tuesday occupies (2025-06-10, "9:00–10:00 AM"), and the
    same request on Wednesday is refused by the slot policy, with the
    past-date reason and not with the duplicate-booking error. *)
Lemma duplicate_booking_counterexample :
  Sample.post Sample.tue_2025_06_10_0800 "id-1"
    (Sample.checkup "2025-06-10" "9:00–10:00 AM") []
  = (Ok (toView (Sample.booked "id-1")), [Sample.booked "id-1"])
  /\ slotKey (Sample.booked "id-1")
     = (bookedInstant Wire.Date_parse (Sample.checkup "2025-06-10" "9:00–10:00 AM"),
        "9:00–10:00 AM")
  /\ Sample.post Sample.wed_2025_06_11_0800 "id-2"
       (Sample.checkup "2025-06-10" "9:00–10:00 AM") [Sample.booked "id-1"]
     = (BadRequest (Some "Cannot book appointments for past dates") [],
        [Sample.booked "id-1"])
  /\ fst (Sample.post Sample.wed_2025_06_11_0800 "id-2"
            (Sample.checkup "2025-06-10" "9:00–10:00 AM") [Sample.booked "id-1"])
     <> duplicateBooking.
Proof.
  repeat split; try (vm_compute; reflexivity).
  vm_compute. discriminate.
Qed.

(** Scenario E: after the booking of scenario D the listing for 2025-06-10
    holds the other five slots, in catalog order. *)
Lemma available_slots_listing_witness :
  Sample.slots (Some "2025-06-10") [Sample.followUp; Sample.booked "id-1"]
  = (Ok {| Slots.available_slots :=
             ["10:00–11:00 AM"; "11:00–12:00 PM"; "12:00–1:00 PM";
              "2:00–3:00 PM"; "3:00–4:00 PM"];
           Slots.message := None |},
     [Sample.followUp; Sample.booked "id-1"]).
Proof.
  apply (proj1 (available_slots_listing 0 Wire.Date_parse "2025-06-10"
                  1749513600000 [Sample.followUp; Sample.booked "id-1"]
                  ltac:(discriminate) eq_refl)).
Defined.

(** Two stored records come back with the earlier date first. *)
Lemma list_all_sorted_capped_witness :
  exists listed,
    getAppointments [Sample.followUp; Sample.booked "id-1"]
    = (Ok (map toView listed), [Sample.followUp; Sample.booked "id-1"])
    /\ StronglySorted byDate listed
    /\ Permutation listed [Sample.followUp; Sample.booked "id-1"].
Proof.
  destruct (list_all_sorted_capped [Sample.followUp; Sample.booked "id-1"])
    as (listed & omitted & Hreply & Hsorted & _ & Hperm & _ & Hall).
  exists listed. rewrite (Hall ltac:(simpl; lia)), app_nil_r in Hperm.
  repeat split; assumption.
Defined.

(** A padded name comes back trimmed. *)
Lemma booking_round_trip_witness :
  Appointment.name (Sample.booked "id-1") = JS.trim (Body.name Sample.padded)
  /\ Appointment.timeSlot (Sample.booked "id-1") = Body.timeSlot Sample.padded
  /\ View.appointment_date (toView (Sample.booked "id-1"))
     = Body.appointmentDate Sample.padded.
Proof.
  destruct (booking_round_trip 0 Wire.Date_parse Wire.isISO8601
              Sample.tue_2025_06_10_0800 "id-1" Sample.padded []
              [Sample.booked "id-1"] (toView (Sample.booked "id-1"))
              ltac:(vm_compute; reflexivity))
    as ((Hname & _ & _ & _ & _ & Hslot) & _).
  split; [exact Hname | split; [exact Hslot | reflexivity]].
Defined.

(** C8 as stated fails for a name submitted with surrounding white space:
    the booking succeeds and the stored name is not the submitted text. *)
Lemma booking_round_trip_counterexample :
  Sample.post Sample.tue_2025_06_10_0800 "id-1" Sample.padded []
  = (Ok (toView (Sample.booked "id-1")), [Sample.booked "id-1"])
  /\ Body.name Sample.padded = "  John Doe "
  /\ Appointment.name (Sample.booked "id-1") = "John Doe"
  /\ Appointment.name (View.doc (toView (Sample.booked "id-1")))
     <> Body.name Sample.padded.
Proof.
  repeat split; try (vm_compute; reflexivity).
  vm_compute. discriminate.
Qed.

(** * Further properties of the code *)

(** ** Slot policy over time *)

Section PolicyOverTime.

Variable tz : Z.
Variable Date_parse : string -> option Z.

Abbreviation validate := (validateAppointmentSlot tz Date_parse).

Lemma localDay_mono (t u : Z) : t <= u -> JS.localDay tz t <= JS.localDay tz u.
Proof.
  intros H. unfold JS.localDay, JS.msPerDay. apply Z.div_le_mono; lia.
Qed.

Lemma startOfDay_le (t u : Z) :
  JS.startOfDay tz t <= JS.startOfDay tz u <-> JS.localDay tz t <= JS.localDay tz u.
Proof.
  rewrite !startOfDay_localDay. unfold JS.msPerDay. lia.
Qed.

Lemma valid_Instant_iff (now : Z) (init : JS.DateInit) (slot : string) (t : Z) :
  JS.newDate Date_parse init = JS.Instant t ->
  isValid (validate now init slot) = true <-> Bookable tz now t slot.
Proof.
  intros E. rewrite (validate_Instant tz Date_parse now init slot t E).
  unfold Bookable, JS.getDay.
  assert (forall d : Z, Some d <> Some 0 <-> d <> 0) as Hsome0
    by (intros d; split; congruence).
  assert (forall d : Z, Some d = Some 6 <-> d = 6) as Hsome6
    by (intros d; split; congruence).
  rewrite Hsome0, Hsome6.
  destruct (Z.eqb_spec ((JS.localDay tz t + 4) mod 7) 0) as [H0 | H0];
    [cbn [isValid]; intuition discriminate |].
  destruct (Z.eqb_spec ((JS.localDay tz t + 4) mod 7) 6) as [H6 | H6];
    cbn [andb].
  - destruct (JS.includes afternoonSlots slot) eqn:I.
    + apply includes_In in I. cbn [isValid]. intuition discriminate.
    + apply includes_false in I.
      destruct (Z.ltb_spec (JS.startOfDay tz t) (JS.startOfDay tz now));
        cbn [isValid]; intuition (try discriminate; try lia).
  - destruct (Z.ltb_spec (JS.startOfDay tz t) (JS.startOfDay tz now));
      cbn [isValid]; intuition (try discriminate; try lia).
Qed.

(** X1: the slot policy accepts a request exactly when its date is not a
    Sunday, the slot is not an afternoon slot on a Saturday, and the date's
    day is not before today's, all on the server's clock; a date that is
    not a valid [Date] at all passes every rule and is accepted. *)
Theorem policy_accepts_iff (now : Z) (init : JS.DateInit) (slot : string) :
  isValid (validate now init slot) = true <->
  match JS.newDate Date_parse init with
  | JS.InvalidDate => True
  | JS.Instant t => Bookable tz now t slot
  end.
Proof.
  destruct (JS.newDate Date_parse init) as [| t] eqn:E.
  - rewrite (validate_InvalidDate tz Date_parse now init slot E). cbn. tauto.
  - now apply valid_Instant_iff.
Qed.

(** X2: a rejection is final.  A request that the slot policy rejects now
    gets the same verdict, with the same reason, at every later time. *)
Theorem policy_rejection_is_final
    (now later : Z) (init : JS.DateInit) (slot : string) :
  now <= later ->
  isValid (validate now init slot) = false ->
  validate later init slot = validate now init slot.
Proof.
  intros Hle Hrej.
  destruct (JS.newDate Date_parse init) as [| t] eqn:E.
  - rewrite (validate_InvalidDate tz Date_parse now init slot E) in Hrej.
    discriminate.
  - revert Hrej.
    rewrite (validate_Instant tz Date_parse now init slot t E),
            (validate_Instant tz Date_parse later init slot t E).
    destruct ((JS.localDay tz t + 4) mod 7 =? 0); [reflexivity |].
    destruct ((_ =? 6) && _)%bool; [reflexivity |].
    pose proof (proj2 (startOfDay_le now later) (localDay_mono _ _ Hle)).
    destruct (Z.ltb_spec (JS.startOfDay tz t) (JS.startOfDay tz now));
      [| discriminate].
    destruct (Z.ltb_spec (JS.startOfDay tz t) (JS.startOfDay tz later));
      [reflexivity | lia].
Qed.

Lemma policy_same_days
    (now now' : Z) (init init' : JS.DateInit) (slot : string) (t t' : Z) :
  JS.newDate Date_parse init = JS.Instant t ->
  JS.newDate Date_parse init' = JS.Instant t' ->
  JS.localDay tz t = JS.localDay tz t' ->
  JS.localDay tz now = JS.localDay tz now' ->
  validate now init slot = validate now' init' slot.
Proof.
  intros E E' Ht Hnow.
  rewrite (validate_Instant tz Date_parse now init slot t E),
          (validate_Instant tz Date_parse now' init' slot t' E').
  rewrite !startOfDay_localDay, Ht, Hnow. reflexivity.
Qed.

(** X3: the slot policy looks at calendar days only.  Two requests whose
    dates fall on the same local day, judged at two times of the same local
    day, get the same verdict for the same slot. *)
Theorem policy_ignores_time_of_day
    (now now' : Z) (init init' : JS.DateInit) (slot : string) (t t' : Z) :
  JS.newDate Date_parse init = JS.Instant t ->
  JS.newDate Date_parse init' = JS.Instant t' ->
  JS.localDay tz t = JS.localDay tz t' ->
  JS.localDay tz now = JS.localDay tz now' ->
  validate now init slot = validate now' init' slot.
Proof.
  intros E E' Ht Hnow. now apply (policy_same_days now now' init init' slot t t').
Qed.

End PolicyOverTime.

(** ** Validation chain and schema *)

Lemma notEmpty_of_length (s : string) :
  (1 <= String.length s)%nat -> notEmpty s = true.
Proof. destruct s; simpl; [lia | reflexivity]. Qed.

Lemma notEmpty_of_In (s : string) (l : list string) :
  In s l -> ~ In "" l -> notEmpty s = true.
Proof.
  intros Hin Hno. unfold notEmpty.
  destruct (String.eqb_spec s ""); [subst; contradiction | reflexivity].
Qed.

Lemma isLength_iff (min max : nat) (s : string) :
  isLength min max s = true <-> (min <= String.length s <= max)%nat.
Proof.
  unfold isLength. rewrite andb_true_iff, !Nat.leb_le. tauto.
Qed.

Lemma isInt_iff (min max n : Z) : isInt min max n = true <-> min <= n <= max.
Proof. unfold isInt. rewrite andb_true_iff, !Z.leb_le. tauto. Qed.

Lemma trim_blank (s : string) : isBlank s = true -> JS.trim s = "".
Proof.
  unfold JS.trim. induction s as [| c r IH]; simpl; [reflexivity |].
  intros H. apply andb_true_iff in H. destruct H as [Hc Hr].
  rewrite Hc. now apply IH.
Qed.

Section ValidationFacts.

Variable isISO8601 : string -> bool.

Lemma validation_nil_iff (body : Body.t) :
  appointmentValidation isISO8601 body = [] <-> WellFormedBody isISO8601 body.
Proof.
  unfold appointmentValidation, WellFormedBody. cbv zeta. split.
  - intros E.
    repeat (apply app_eq_nil in E; destruct E as [?%check_nil E]).
    apply check_nil in E.
    repeat match goal with
           | H : isLength _ _ _ = true |- _ => apply isLength_iff in H
           | H : isInt _ _ _ = true |- _ => apply isInt_iff in H
           | H : JS.includes _ _ = true |- _ => apply includes_In in H
           end.
    repeat split; solve [assumption | lia].
  - intros (Hname & Hsex & Hage & Hcomplaint & Hdate & Hslot).
    rewrite (notEmpty_of_length (JS.trim (Body.name body))) by lia.
    rewrite (proj2 (isLength_iff 2 100 _) Hname).
    rewrite (notEmpty_of_In _ _ Hsex)
      by (simpl; intros [H | [H | [H | []]]]; discriminate H).
    rewrite (proj2 (includes_In _ _) Hsex).
    rewrite (proj2 (isInt_iff 0 150 _) Hage).
    rewrite (notEmpty_of_length (JS.trim (Body.complaint body))) by lia.
    rewrite (proj2 (isLength_iff 5 500 _) Hcomplaint).
    rewrite Hdate.
    rewrite (notEmpty_of_In _ _ Hslot)
      by (simpl; intros [H | [H | [H | [H | [H | [H | []]]]]]]; discriminate H).
    rewrite (proj2 (includes_In _ _) Hslot).
    reflexivity.
Qed.



(** X5: a name or a complaint made of white space only counts as missing:
    the chain reports it as required, and the booking route answers
    "Validation failed" without touching the ledger. *)
Theorem blank_text_is_missing
    (tz : Z) (Date_parse : string -> option Z)
    (now : Z) (uuid : string) (body : Body.t) (ledger : Ledger) :
  isBlank (Body.name body) = true \/ isBlank (Body.complaint body) = true ->
  (isBlank (Body.name body) = true ->
   In {| path := "name"; msg := "Name is required" |}
      (appointmentValidation isISO8601 body))
  /\ (isBlank (Body.complaint body) = true ->
      In {| path := "complaint"; msg := "Complaint is required" |}
         (appointmentValidation isISO8601 body))
  /\ postAppointments tz Date_parse isISO8601 now uuid body ledger
     = (BadRequest (Some "Validation failed")
          (appointmentValidation isISO8601 body), ledger).
Proof.
  intros H.
  assert (isBlank (Body.name body) = true ->
          In {| path := "name"; msg := "Name is required" |}
             (appointmentValidation isISO8601 body)) as Hname.
  { intros B. unfold appointmentValidation. cbv zeta.
    rewrite (trim_blank _ B). cbn. now left. }
  assert (isBlank (Body.complaint body) = true ->
          In {| path := "complaint"; msg := "Complaint is required" |}
             (appointmentValidation isISO8601 body)) as Hcomplaint.
  { intros B. unfold appointmentValidation. cbv zeta.
    rewrite (trim_blank _ B).
    do 5 (apply in_or_app; right).
    apply in_or_app. left. cbn. now left. }
  split; [exact Hname | split; [exact Hcomplaint |]].
  rewrite post_unfold.
  destruct (appointmentValidation isISO8601 body) eqn:V; [| reflexivity].
  destruct H as [B | B]; [apply Hname in B | apply Hcomplaint in B];
    contradiction B.
Qed.


End ValidationFacts.

(** ** Outcomes of the booking route *)

Section OutcomeFacts.

Variable tz : Z.
Variable Date_parse : string -> option Z.
Variable isISO8601 : string -> bool.

Abbreviation validate := (validateAppointmentSlot tz Date_parse).
Abbreviation post := (postAppointments tz Date_parse isISO8601).
Abbreviation drafted := (draft Date_parse).

Lemma In_ids (ledger : Ledger) (uuid : string) :
  ~ In uuid (map Appointment.id ledger) <->
  forall b, In b ledger -> Appointment.id b <> uuid.
Proof.
  rewrite in_map_iff. split.
  - intros H b Hin Hid. apply H. now exists b.
  - intros H [b [Hid Hin]]. exact (H b Hin Hid).
Qed.




(** X10: a date that passes [isISO8601] but that [Date.parse] cannot read
    becomes [null] in [toDate] and is booked as the epoch, 1 January 1970
    UTC: the request is judged as one for that day, and on a server within
    a day of UTC, at any time after that day, it is refused as a past date. *)
Theorem unparsed_date_is_epoch
    (now : Z) (uuid : string) (body : Body.t) (ledger : Ledger) :
  appointmentValidation isISO8601 body = [] ->
  Date_parse (Body.appointmentDate body) = None ->
  - JS.msPerDay < tz < JS.msPerDay ->
  JS.startOfDay tz 0 < JS.startOfDay tz now ->
  post now uuid body ledger
  = (BadRequest (Some "Cannot book appointments for past dates") [], ledger).
Proof.
  intros Hv Hparse Htz Hnow.
  assert (bookedInstant Date_parse body = 0) as Hzero
    by (unfold bookedInstant; now rewrite Hparse).
  pose proof (newDate_toDate Date_parse body) as E. rewrite Hzero in E.
  assert (validate now (toDate Date_parse (Body.appointmentDate body))
            (Body.timeSlot body)
          = {| isValid := false;
               message := Some "Cannot book appointments for past dates" |}) as R.
  { rewrite (validate_Instant tz Date_parse now _ _ 0 E).
    assert (JS.localDay tz 0 = -1 \/ JS.localDay tz 0 = 0) as Hday.
    { unfold JS.localDay, JS.msPerDay in *.
      pose proof (Z.div_mod (0 + tz) 86400000 ltac:(lia)).
      pose proof (Z.mod_pos_bound (0 + tz) 86400000 ltac:(lia)). lia. }
    destruct Hday as [-> | ->]; cbn [Z.add Z.modulo Z.eqb andb];
      (destruct (Z.ltb_spec (JS.startOfDay tz 0) (JS.startOfDay tz now));
       [reflexivity | lia]). }
  rewrite (post_rejected_by_policy tz Date_parse isISO8601 now uuid body ledger Hv);
    rewrite R; reflexivity.
Qed.

End OutcomeFacts.

(** ** Availability and booking together *)

Lemma includes_app (xs ys : list string) (s : string) :
  JS.includes (xs ++ ys) s = (JS.includes xs s || JS.includes ys s)%bool.
Proof. unfold JS.includes. apply existsb_app. Qed.

Lemma minus_snoc (xs ys : list string) (s : string) :
  minus xs (ys ++ [s]) = minus (minus xs ys) [s].
Proof.
  unfold minus. induction xs as [| x r IH]; simpl; [reflexivity |].
  rewrite includes_app.
  destruct (JS.includes ys x); simpl; [exact IH |].
  unfold JS.includes at 1 3. simpl.
  destruct (String.eqb x s); simpl; [exact IH | f_equal; exact IH].
Qed.

Lemma listForDate_snoc_same (ledger : Ledger) (a : Appointment.t) :
  listForDate (ledger ++ [a]) (Appointment.appointmentDate a)
  = listForDate ledger (Appointment.appointmentDate a) ++ [Appointment.timeSlot a].
Proof.
  unfold listForDate. rewrite filter_app, map_app. simpl.
  unfold onDate at 2. rewrite Z.eqb_refl. reflexivity.
Qed.

Lemma listForDate_snoc_other (ledger : Ledger) (a : Appointment.t) (t : Z) :
  Appointment.appointmentDate a <> t ->
  listForDate (ledger ++ [a]) t = listForDate ledger t.
Proof.
  intros H. unfold listForDate. rewrite filter_app, map_app. simpl.
  unfold onDate at 2. destruct (Z.eqb_spec (Appointment.appointmentDate a) t);
    [contradiction | apply app_nil_r].
Qed.

Lemma In_listForDate (ledger : Ledger) (t : Z) (slot : string) :
  In slot (listForDate ledger t) <-> In (t, slot) (map slotKey ledger).
Proof.
  unfold listForDate. rewrite !in_map_iff. split.
  - intros [a [Hs Ha]]. apply filter_In in Ha. destruct Ha as [Ha Hd].
    unfold onDate in Hd. apply Z.eqb_eq in Hd.
    exists a. split; [unfold slotKey; congruence | assumption].
  - intros [a [Hk Ha]]. unfold slotKey in Hk. injection Hk as Hd Hs.
    exists a. split; [assumption |]. apply filter_In.
    split; [assumption | unfold onDate; now apply Z.eqb_eq].
Qed.

Section TogetherFacts.

Variable tz : Z.
Variable Date_parse : string -> option Z.
Variable isISO8601 : string -> bool.

Abbreviation validate := (validateAppointmentSlot tz Date_parse).
Abbreviation post := (postAppointments tz Date_parse isISO8601).
Abbreviation slotsFor := (getAvailableSlots tz Date_parse).

Lemma policy_valid_theoretical (now t : Z) (slot : string) :
  In slot allSlots ->
  Bookable tz now t slot ->
  In slot (specTheoreticalSlots (JS.getDay tz (JS.Instant t))).
Proof.
  intros Hcat (Hsun & Hsat & _).
  apply (theoretical_iff_policy tz Date_parse). split; [assumption |].
  apply (valid_Instant_iff tz Date_parse t (JS.FromDate (JS.Instant t)) slot t
           eq_refl).
  repeat split; [assumption | assumption | lia].
Qed.

(** X11: a booking takes its slot off the availability listing.  Before a
    successful booking the query for the booked date lists the slot; after
    it the query returns the same listing without that slot, and the
    listing of every other date is what it was. *)
Theorem booked_slot_leaves_listing
    (now : Z) (uuid : string) (body : Body.t) (ledger ledger' : Ledger)
    (v : View.t) (t : Z) :
  post now uuid body ledger = (Ok v, ledger') ->
  Body.appointmentDate body <> "" ->
  Date_parse (Body.appointmentDate body) = Some t ->
  In (Body.timeSlot body) (specAvailableSlots tz ledger t)
  /\ slotsFor (Some (Body.appointmentDate body)) ledger'
     = (Ok {| Slots.available_slots :=
                minus (specAvailableSlots tz ledger t) [Body.timeSlot body];
              Slots.message := None |},
        ledger')
  /\ ~ In (Body.timeSlot body)
         (minus (specAvailableSlots tz ledger t) [Body.timeSlot body])
  /\ (forall text t',
         text <> "" -> Date_parse text = Some t' -> t' <> t ->
         fst (slotsFor (Some text) ledger') = fst (slotsFor (Some text) ledger)).
Proof.
  intros P Hne Hparse.
  destruct (post_Ok_inv _ _ _ _ _ _ _ _ _ P) as (Hv & Hp & Hfree & _ & _ & _ & ->).
  assert (bookedInstant Date_parse body = t) as Ht
    by (unfold bookedInstant; now rewrite Hparse).
  rewrite Ht in Hfree.
  apply validation_nil_iff in Hv. destruct Hv as (_ & _ & _ & _ & _ & Hcat).
  pose proof (newDate_toDate Date_parse body) as E. rewrite Ht in E.
  apply (valid_Instant_iff tz Date_parse now _ _ _ E) in Hp.
  assert (Appointment.appointmentDate (draft Date_parse now uuid body) = t) as Hd
    by exact Ht.
  split; [| split; [| split]].
  - unfold specAvailableSlots. apply In_minus. split.
    + now apply (policy_valid_theoretical now).
    + now rewrite In_listForDate.
  - rewrite (slotsFor_Instant tz Date_parse _ t _ Hne Hparse).
    destruct Hp as (Hsun & _).
    replace (JS.strictEq (JS.getDay tz (JS.Instant t)) 0) with false
      by (cbn in *; destruct (Z.eqb_spec ((JS.localDay tz t + 4) mod 7) 0);
          [exfalso; apply Hsun; congruence | reflexivity]).
    unfold specAvailableSlots. rewrite <- Hd at 2.
    rewrite listForDate_snoc_same, minus_snoc, Hd. reflexivity.
  - rewrite In_minus. intros [_ H]. apply H. now left.
  - intros text t' Hne' Hparse' Hdiff.
    rewrite !(slotsFor_Instant tz Date_parse _ t' _ Hne' Hparse'). cbn [fst].
    unfold specAvailableSlots. rewrite listForDate_snoc_other; [reflexivity |].
    rewrite Hd. congruence.
Qed.


End TogetherFacts.

(** ** What the ledger always holds *)

Section LedgerFacts.

Variable tz : Z.
Variable Date_parse : string -> option Z.
Variable isISO8601 : string -> bool.

Abbreviation post := (postAppointments tz Date_parse isISO8601).

Lemma post_ledger_cases
    (now : Z) (uuid : string) (body : Body.t) (ledger : Ledger) :
  snd (post now uuid body ledger) = ledger
  \/ (snd (post now uuid body ledger) = ledger ++ [draft Date_parse now uuid body]
      /\ schemaValidation (draft Date_parse now uuid body) = []
      /\ ~ In uuid (map Appointment.id ledger)
      /\ Bookable tz now (bookedInstant Date_parse body) (Body.timeSlot body)).
Proof.
  destruct (post_failure_keeps_ledger tz Date_parse isISO8601 now uuid body ledger)
    as [[v P] | H]; [right | now left].
  destruct (post_Ok_inv _ _ _ _ _ _ _ _ _ P) as (_ & Hp & _ & Hid & Hs & _).
  apply (valid_Instant_iff tz Date_parse now _ (Body.timeSlot body) _
           (newDate_toDate Date_parse body)) in Hp.
  rewrite P. cbn [snd].
  split; [reflexivity | split; [exact Hs | split; [| exact Hp]]].
  now apply In_ids.
Qed.

Lemma serve_invariant (Inv : Ledger -> Prop) :
  (forall now uuid body ledger,
      Inv ledger -> Inv (snd (post now uuid body ledger))) ->
  forall requests ledger,
    Inv ledger -> Inv (serve tz Date_parse isISO8601 requests ledger).
Proof.
  intros Hstep requests. induction requests as [| r rest IH]; intros ledger H.
  - exact H.
  - simpl. apply IH, Hstep, H.
Qed.

(** X13: bookings served one after the other keep the stored identifiers
    pairwise distinct and every stored record within the bounds of the
    schema (trimmed name of 2 to 100 characters, sex and time slot from
    their lists, age from 0 to 150, complaint of 5 to 500 characters, a
    known status); both hold of the empty ledger. *)
Theorem ledger_stays_within_schema (requests : list Request) (ledger : Ledger) :
  IdsUnique ledger /\ WithinSchema ledger ->
  IdsUnique (serve tz Date_parse isISO8601 requests ledger)
  /\ WithinSchema (serve tz Date_parse isISO8601 requests ledger).
Proof.
  apply (serve_invariant (fun l => IdsUnique l /\ WithinSchema l)).
  clear requests ledger. intros now uuid body ledger [Hids Hschema].
  destruct (post_ledger_cases now uuid body ledger) as [-> | (-> & Hs & Hid & _)];
    [now split |].
  split.
  - unfold IdsUnique in *. rewrite map_app. simpl.
    apply (Permutation_NoDup (Permutation_cons_append _ _)).
    now constructor.
  - unfold WithinSchema in *. apply Forall_app. split; [assumption |].
    now constructor.
Qed.


End LedgerFacts.

(** ** Two requests in flight *)

Section FlightFacts.

Variable tz : Z.
Variable Date_parse : string -> option Z.
Variable isISO8601 : string -> bool.

Abbreviation post := (postAppointments tz Date_parse isISO8601).
Abbreviation stepOf := (step tz Date_parse isISO8601).
Abbreviation runOf := (run tz Date_parse isISO8601).
Abbreviation checkedOf := (checked tz Date_parse isISO8601).
Abbreviation failed := (@ServerError View.t "Failed to create appointment: ").

Lemma step_Received (now : Z) (uuid : string) (body : Body.t) (ledger : Ledger) :
  stepOf (Received now uuid body) ledger = (checkedOf now uuid body ledger, ledger).
Proof.
  unfold checked, step. cbv zeta.
  destruct (appointmentValidation isISO8601 body); [| reflexivity].
  destruct (negb _); [reflexivity |].
  destruct (findOne ledger _ _) as [[b |] | e]; try reflexivity.
  destruct (castDate _); reflexivity.
Qed.

Lemma checked_cases (now : Z) (uuid : string) (body : Body.t) (ledger : Ledger) :
  checkedOf now uuid body ledger = Saving (draft Date_parse now uuid body)
  \/ exists reply, checkedOf now uuid body ledger = Finished reply.
Proof.
  unfold checked, step. cbv zeta.
  destruct (appointmentValidation isISO8601 body); [| right; eexists; reflexivity].
  destruct (negb _); [right; eexists; reflexivity |].
  unfold findOne. rewrite newDate_toDate. cbn [castDate].
  destruct (find _ ledger); [right; eexists; reflexivity | now left].
Qed.

Lemma find_snoc_other (ledger : Ledger) (a : Appointment.t) (t : Z) (slot : string) :
  slotKey a <> (t, slot) ->
  find (onDateSlot t slot) (ledger ++ [a])
  = find (onDateSlot t slot) ledger.
Proof.
  intros H. induction ledger as [| b r IH]; simpl.
  - destruct (onDateSlot t slot a) eqn:M; [| reflexivity].
    apply onDateSlot_slotKey in M. contradiction.
  - destruct (onDateSlot t slot b); [reflexivity | exact IH].
Qed.

(** A record for another date or slot does not change the answer of the
    duplicate check. *)
Lemma checked_frame
    (now : Z) (uuid : string) (body : Body.t) (ledger : Ledger)
    (a : Appointment.t) :
  slotKey a <> requestKey Date_parse body ->
  checkedOf now uuid body (ledger ++ [a]) = checkedOf now uuid body ledger.
Proof.
  intros H. unfold checked, step. cbv zeta.
  destruct (appointmentValidation isISO8601 body); [| reflexivity].
  destruct (negb _); [reflexivity |].
  unfold findOne. rewrite newDate_toDate. cbn [castDate].
  rewrite (find_snoc_other _ _ _ _ H).
  destruct (find _ ledger); reflexivity.
Qed.

(** A record with another identifier does not change the outcome of a
    save. *)
Lemma save_frame (ledger : Ledger) (a d : Appointment.t) :
  Appointment.id a <> Appointment.id d ->
  save (ledger ++ [a]) d =
    match save ledger d with
    | inl _ => inl ((ledger ++ [a]) ++ [d])
    | inr e => inr e
    end.
Proof.
  intros H. unfold save.
  destruct (schemaValidation d); [| reflexivity].
  rewrite existsb_app. cbn [existsb].
  destruct (String.eqb_spec (Appointment.id a) (Appointment.id d));
    [contradiction |].
  rewrite !orb_false_r. destruct (existsb _ ledger); reflexivity.
Qed.

Lemma save_inl (ledger ledger' : Ledger) (d : Appointment.t) :
  save ledger d = inl ledger' -> ledger' = ledger ++ [d].
Proof.
  unfold save. destruct (schemaValidation d); [| discriminate].
  destruct (existsb _ ledger); [discriminate | congruence].
Qed.

(** The route is its two steps run back to back. *)
Lemma post_by_steps (now : Z) (uuid : string) (body : Body.t) (ledger : Ledger) :
  post now uuid body ledger =
    match checkedOf now uuid body ledger with
    | Finished reply => (reply, ledger)
    | Saving d =>
        match save ledger d with
        | inl ledger' => (Ok (toView d), ledger')
        | inr e => (failed e, ledger)
        end
    | Received _ _ _ => post now uuid body ledger
    end.
Proof.
  unfold checked, step, postAppointments. cbv zeta.
  destruct (appointmentValidation isISO8601 body); [| reflexivity].
  destruct (negb _); [reflexivity |].
  destruct (findOne ledger _ _) as [[b |] | e]; try reflexivity.
  destruct (castDate _); reflexivity.
Qed.

End FlightFacts.

Section FlightTheorems.

Variable tz : Z.
Variable Date_parse : string -> option Z.
Variable isISO8601 : string -> bool.

Abbreviation post := (postAppointments tz Date_parse isISO8601).
Abbreviation stepOf := (step tz Date_parse isISO8601).
Abbreviation runOf := (run tz Date_parse isISO8601).
Abbreviation checkedOf := (checked tz Date_parse isISO8601).

Lemma find_app_other (ledger extra : Ledger) (t : Z) (slot : string) :
  Forall (fun a => slotKey a <> (t, slot)) extra ->
  find (onDateSlot t slot) (ledger ++ extra) = find (onDateSlot t slot) ledger.
Proof.
  intros H. induction ledger as [| b r IH]; simpl.
  - induction H as [| a extra Ha _ IHx]; simpl; [reflexivity |].
    destruct (onDateSlot t slot a) eqn:M; [| exact IHx].
    apply onDateSlot_slotKey in M. contradiction.
  - destruct (onDateSlot t slot b); [reflexivity | exact IH].
Qed.

Lemma existsb_id_other (extra : Ledger) (uuid : string) :
  Forall (fun a => Appointment.id a <> uuid) extra ->
  existsb (fun b => String.eqb (Appointment.id b) uuid) extra = false.
Proof.
  induction 1 as [| a extra Ha _ IH]; simpl; [reflexivity |].
  destruct (String.eqb_spec (Appointment.id a) uuid); [contradiction | exact IH].
Qed.

(** The two steps of one call, run on a ledger that has meanwhile gained
    records for other slots under other identifiers, do what they do on the
    ledger without them. *)
Lemma call_steps_framed (now : Z) (uuid : string) (body : Body.t) (ledger : Ledger) :
  exists new,
    snd (post now uuid body ledger) = ledger ++ new
    /\ Forall (fun a => slotKey a = requestKey Date_parse body
                        /\ Appointment.id a = uuid) new
    /\ forall extra,
         Forall (fun a => slotKey a <> requestKey Date_parse body) extra ->
         Forall (fun a => Appointment.id a <> uuid) extra ->
         stepOf (Received now uuid body) (ledger ++ extra)
         = (checkedOf now uuid body ledger, ledger ++ extra)
         /\ stepOf (checkedOf now uuid body ledger) (ledger ++ extra)
            = (Finished (fst (post now uuid body ledger)), (ledger ++ extra) ++ new).
Proof.
  assert (forall extra,
             Forall (fun a => slotKey a <> requestKey Date_parse body) extra ->
             checkedOf now uuid body (ledger ++ extra) = checkedOf now uuid body ledger)
    as Hframe.
  { intros extra Hx. unfold checked, step. cbv zeta.
    destruct (appointmentValidation isISO8601 body); [| reflexivity].
    destruct (negb _); [reflexivity |].
    unfold findOne. rewrite newDate_toDate. cbn [castDate].
    rewrite (find_app_other _ _ _ _ Hx).
    destruct (find _ ledger); reflexivity. }
  rewrite (post_by_steps tz Date_parse isISO8601 now uuid body ledger).
  destruct (checked_cases tz Date_parse isISO8601 now uuid body ledger)
    as [C | [reply C]]; rewrite C.
  - set (d := draft Date_parse now uuid body) in *.
    destruct (save ledger d) as [ledger' | e] eqn:S.
    + apply save_inl in S as E. subst ledger'.
      exists [d]. split; [reflexivity |]. split; [repeat constructor |].
      intros extra Hk Hi. rewrite step_Received, (Hframe extra Hk), C.
      split; [reflexivity |]. cbn [step fst].
      replace (save (ledger ++ extra) d) with (@inl Ledger StoreError ((ledger ++ extra) ++ [d]));
        [reflexivity |].
      unfold save in *. destruct (schemaValidation d); [| discriminate S].
      rewrite existsb_app.
      destruct (existsb _ ledger); [discriminate S |].
      rewrite (existsb_id_other extra (Appointment.id d) Hi). reflexivity.
    + exists []. split; [now rewrite app_nil_r |]. split; [constructor |].
      intros extra Hk Hi. rewrite step_Received, (Hframe extra Hk), C.
      split; [reflexivity |]. cbn [step fst]. rewrite app_nil_r.
      replace (save (ledger ++ extra) d) with (@inr Ledger StoreError e);
        [reflexivity |].
      unfold save in *. destruct (schemaValidation d); [| now symmetry].
      rewrite existsb_app.
      destruct (existsb _ ledger); [now symmetry | discriminate S].
  - exists []. split; [now rewrite app_nil_r |]. split; [constructor |].
    intros extra Hk Hi. rewrite step_Received, (Hframe extra Hk), C.
    split; [reflexivity |]. cbn [step fst]. now rewrite app_nil_r.
Qed.

(** X15: requests for different slots do not disturb each other.  Two
    booking requests for different (date, slot) pairs, with different
    identifiers, each get the reply they would get alone on the ledger, in
    whatever order their steps run, and the ledger gains exactly the
    records the two would have stored alone. *)
Theorem different_slots_do_not_interfere
    (now1 now2 : Z) (uuid1 uuid2 : string) (body1 body2 : Body.t)
    (ledger : Ledger) (schedule : list nat) :
  requestKey Date_parse body1 <> requestKey Date_parse body2 ->
  uuid1 <> uuid2 ->
  In schedule interleavings ->
  exists new1 new2 ledger',
    snd (post now1 uuid1 body1 ledger) = ledger ++ new1
    /\ snd (post now2 uuid2 body2 ledger) = ledger ++ new2
    /\ runOf schedule
         [Received now1 uuid1 body1; Received now2 uuid2 body2] ledger
       = ([Finished (fst (post now1 uuid1 body1 ledger));
           Finished (fst (post now2 uuid2 body2 ledger))],
          ledger')
    /\ Permutation ledger' (ledger ++ new1 ++ new2).
Proof.
  intros Hkey Hne Hs.
  destruct (call_steps_framed now1 uuid1 body1 ledger) as (new1 & P1 & N1 & F1).
  destruct (call_steps_framed now2 uuid2 body2 ledger) as (new2 & P2 & N2 & F2).
  assert (Forall (fun a => slotKey a <> requestKey Date_parse body2) new1
          /\ Forall (fun a => Appointment.id a <> uuid2) new1) as [K1 I1].
  { split; eapply Forall_impl; try exact N1; intros a [Hk Hi]; congruence. }
  assert (Forall (fun a => slotKey a <> requestKey Date_parse body1) new2
          /\ Forall (fun a => Appointment.id a <> uuid1) new2) as [K2 I2].
  { split; eapply Forall_impl; try exact N2; intros a [Hk Hi]; congruence. }
  destruct (F1 [] (Forall_nil _) (Forall_nil _)) as [A1 B1].
  destruct (F1 new2 K2 I2) as [A1' B1'].
  destruct (F2 [] (Forall_nil _) (Forall_nil _)) as [A2 B2].
  destruct (F2 new1 K1 I1) as [A2' B2'].
  rewrite app_nil_r in A1, B1, A2, B2.
  exists new1, new2.
  simpl in Hs.
  destruct Hs as [<- | [<- | [<- | [<- | [<- | [<- | []]]]]]]; cbn [run stepAt].
  - rewrite A1. cbn [run stepAt]. rewrite B1. cbn [run stepAt].
    rewrite A2'. cbn [run stepAt]. rewrite B2'.
    eexists. repeat split; try eassumption.
    rewrite <- app_assoc. apply Permutation_refl.
  - rewrite A1. cbn [run stepAt]. rewrite A2. cbn [run stepAt].
    rewrite B1. cbn [run stepAt]. rewrite B2'.
    eexists. repeat split; try eassumption.
    rewrite <- app_assoc. apply Permutation_refl.
  - rewrite A1. cbn [run stepAt]. rewrite A2. cbn [run stepAt].
    rewrite B2. cbn [run stepAt]. rewrite B1'.
    eexists. repeat split; try eassumption.
    rewrite <- app_assoc. apply Permutation_app_head, Permutation_app_comm.
  - rewrite A2. cbn [run stepAt]. rewrite A1. cbn [run stepAt].
    rewrite B1. cbn [run stepAt]. rewrite B2'.
    eexists. repeat split; try eassumption.
    rewrite <- app_assoc. apply Permutation_refl.
  - rewrite A2. cbn [run stepAt]. rewrite A1. cbn [run stepAt].
    rewrite B2. cbn [run stepAt]. rewrite B1'.
    eexists. repeat split; try eassumption.
    rewrite <- app_assoc. apply Permutation_app_head, Permutation_app_comm.
  - rewrite A2. cbn [run stepAt]. rewrite B2. cbn [run stepAt].
    rewrite A1'. cbn [run stepAt]. rewrite B1'.
    eexists. repeat split; try eassumption.
    rewrite <- app_assoc. apply Permutation_app_head, Permutation_app_comm.
Qed.

End FlightTheorems.

Section RaceWindow.

Variable tz : Z.
Variable Date_parse : string -> option Z.
Variable isISO8601 : string -> bool.

Abbreviation post := (postAppointments tz Date_parse isISO8601).
Abbreviation stepOf := (step tz Date_parse isISO8601).
Abbreviation runOf := (run tz Date_parse isISO8601).

Lemma step_Received_free
    (now : Z) (uuid : string) (body : Body.t) (ledger : Ledger) :
  appointmentValidation isISO8601 body = [] ->
  isValid (validateAppointmentSlot tz Date_parse now
             (toDate Date_parse (Body.appointmentDate body))
             (Body.timeSlot body)) = true ->
  ~ In (requestKey Date_parse body) (map slotKey ledger) ->
  stepOf (Received now uuid body) ledger
  = (Saving (draft Date_parse now uuid body), ledger).
Proof.
  intros Hv Hp Hfree. unfold step. cbv zeta. rewrite Hv, Hp. cbn [negb].
  unfold findOne. rewrite newDate_toDate. cbn [castDate].
  apply find_onDateSlot_None in Hfree. now rewrite Hfree.
Qed.

Lemma step_Received_taken
    (now : Z) (uuid : string) (body : Body.t) (ledger : Ledger) :
  appointmentValidation isISO8601 body = [] ->
  isValid (validateAppointmentSlot tz Date_parse now
             (toDate Date_parse (Body.appointmentDate body))
             (Body.timeSlot body)) = true ->
  In (requestKey Date_parse body) (map slotKey ledger) ->
  stepOf (Received now uuid body) ledger = (Finished duplicateBooking, ledger).
Proof.
  intros Hv Hp Htaken. unfold step. cbv zeta. rewrite Hv, Hp. cbn [negb].
  unfold findOne. rewrite newDate_toDate. cbn [castDate].
  destruct (find _ ledger) eqn:F; [reflexivity |].
  apply find_onDateSlot_None in F. contradiction.
Qed.

Lemma double_key_not_unique (ledger ledger' : Ledger) (a b : Appointment.t) :
  slotKey a = slotKey b ->
  Permutation ledger' (ledger ++ [a; b]) ->
  ~ SlotsUnique ledger'.
Proof.
  intros Hk Hperm U. unfold SlotsUnique in U.
  apply (Permutation_NoDup (Permutation_map slotKey Hperm)) in U.
  rewrite map_app in U. apply NoDup_app_remove_l in U. simpl in U.
  inversion U as [| ? ? Hnotin _]; subst. apply Hnotin. left. now symmetry.
Qed.

(** X16: the window of the double booking.  For two requests for the same
    date and slot that would each succeed alone: when one runs both its
    steps before the other starts, the first is stored and the second gets
    the duplicate-booking error; in each of the four orders in which both
    duplicate checks come before both saves, both get the success reply
    and the ledger ends with two records for the slot. *)
Theorem double_booking_window
    (now1 now2 : Z) (uuid1 uuid2 : string) (body : Body.t)
    (ledger ledger1 ledger2 : Ledger) (v1 v2 : View.t) :
  uuid1 <> uuid2 ->
  post now1 uuid1 body ledger = (Ok v1, ledger1) ->
  post now2 uuid2 body ledger = (Ok v2, ledger2) ->
  runOf [0; 0; 1; 1]%nat
    [Received now1 uuid1 body; Received now2 uuid2 body] ledger
  = ([Finished (Ok v1); Finished duplicateBooking], ledger ++ [View.doc v1])
  /\ runOf [1; 1; 0; 0]%nat
       [Received now1 uuid1 body; Received now2 uuid2 body] ledger
     = ([Finished duplicateBooking; Finished (Ok v2)], ledger ++ [View.doc v2])
  /\ forall schedule,
       In schedule [[0; 1; 0; 1]; [0; 1; 1; 0]; [1; 0; 0; 1]; [1; 0; 1; 0]]%nat ->
       exists ledger',
         runOf schedule
           [Received now1 uuid1 body; Received now2 uuid2 body] ledger
         = ([Finished (Ok v1); Finished (Ok v2)], ledger')
         /\ Permutation ledger' (ledger ++ [View.doc v1; View.doc v2])
         /\ ~ SlotsUnique ledger'.
Proof.
  intros Hne H1 H2.
  destruct (post_Ok_inv _ _ _ _ _ _ _ _ _ H1)
    as (Hv & Hp1 & Hfree & Hid1 & Hs1 & -> & _).
  destruct (post_Ok_inv _ _ _ _ _ _ _ _ _ H2)
    as (_ & Hp2 & _ & Hid2 & Hs2 & -> & _).
  set (d1 := draft Date_parse now1 uuid1 body) in *.
  set (d2 := draft Date_parse now2 uuid2 body) in *.
  cbn [View.doc toView].
  pose proof (step_Received_free now1 uuid1 body ledger Hv Hp1 Hfree) as R1.
  pose proof (step_Received_free now2 uuid2 body ledger Hv Hp2 Hfree) as R2.
  assert (forall d, slotKey d = requestKey Date_parse body ->
                    In (requestKey Date_parse body) (map slotKey (ledger ++ [d])))
    as Hin.
  { intros d Hd. rewrite map_app. apply in_or_app. right. left. exact Hd. }
  pose proof (step_Received_taken now2 uuid2 body (ledger ++ [d1]) Hv Hp2
                (Hin d1 eq_refl)) as T2.
  pose proof (step_Received_taken now1 uuid1 body (ledger ++ [d2]) Hv Hp1
                (Hin d2 eq_refl)) as T1.
  assert (save ledger d1 = inl (ledger ++ [d1])) as S1
    by (apply save_fresh; assumption).
  assert (save ledger d2 = inl (ledger ++ [d2])) as S2
    by (apply save_fresh; assumption).
  assert (save (ledger ++ [d1]) d2 = inl ((ledger ++ [d1]) ++ [d2])) as S12.
  { apply save_fresh; [assumption |]. intros b Hb. apply in_app_or in Hb.
    destruct Hb as [Hb | [<- | []]]; [now apply Hid2 | exact Hne]. }
  assert (save (ledger ++ [d2]) d1 = inl ((ledger ++ [d2]) ++ [d1])) as S21.
  { apply save_fresh; [assumption |]. intros b Hb. apply in_app_or in Hb.
    destruct Hb as [Hb | [<- | []]]; [now apply Hid1 |].
    intros E. apply Hne. now symmetry. }
  fold d1 d2 in R1, R2, T1, T2.
  split; [| split].
  - cbn [run stepAt]. rewrite R1. cbn [run stepAt step]. rewrite S1.
    cbn [run stepAt]. rewrite T2. reflexivity.
  - cbn [run stepAt]. rewrite R2. cbn [run stepAt step]. rewrite S2.
    cbn [run stepAt]. rewrite T1. reflexivity.
  - intros schedule Hs. simpl in Hs.
    destruct Hs as [<- | [<- | [<- | [<- | []]]]]; cbn [run stepAt];
      rewrite ?R1, ?R2; cbn [run stepAt]; rewrite ?R1, ?R2;
      cbn [run stepAt step]; rewrite ?S1, ?S2; cbn [run stepAt step];
      rewrite ?S12, ?S21; eexists; (split; [reflexivity |]).
    + split; [rewrite <- app_assoc; apply Permutation_refl |].
      apply (double_key_not_unique ledger _ d1 d2 eq_refl).
      rewrite <- app_assoc. apply Permutation_refl.
    + split; [rewrite <- app_assoc; apply Permutation_app_head, perm_swap |].
      apply (double_key_not_unique ledger _ d1 d2 eq_refl).
      rewrite <- app_assoc. apply Permutation_app_head, perm_swap.
    + split; [rewrite <- app_assoc; apply Permutation_refl |].
      apply (double_key_not_unique ledger _ d1 d2 eq_refl).
      rewrite <- app_assoc. apply Permutation_refl.
    + split; [rewrite <- app_assoc; apply Permutation_app_head, perm_swap |].
      apply (double_key_not_unique ledger _ d1 d2 eq_refl).
      rewrite <- app_assoc. apply Permutation_app_head, perm_swap.
Qed.

End RaceWindow.

(** ** The form and the route *)

Section FormFacts.

Variable tz : Z.
Variable Date_parse : string -> option Z.
Variable isISO8601 : string -> bool.
Variable parseInt : string -> option Z.

(** X17: the booking form cannot book.  The body that [handleSubmit] posts
    names the date and the slot [appointment_date] and [time_slot], while
    the route validates [appointmentDate] and [timeSlot]; so whatever the
    form holds, the route sees both as missing, answers "Validation failed"
    with the error "Time slot is required" among its errors, and stores
    nothing. *)
Theorem form_submission_rejected
    (now : Z) (uuid : string) (formData : Form.t) (body : Body.t)
    (ledger : Ledger) :
  asBody (submitted parseInt formData) = Some body ->
  Body.name body = Form.name formData
  /\ Body.appointmentDate body = ""
  /\ Body.timeSlot body = ""
  /\ In {| path := "timeSlot"; msg := "Time slot is required" |}
        (appointmentValidation isISO8601 body)
  /\ postAppointments tz Date_parse isISO8601 now uuid body ledger
     = (BadRequest (Some "Validation failed")
          (appointmentValidation isISO8601 body), ledger).
Proof.
  unfold asBody, submitted, fieldText. cbn [Json.get String.eqb Ascii.eqb Bool.eqb].
  destruct (parseInt (Form.age formData)) as [n |]; [| discriminate].
  intros E. injection E as <-.
  cbn [Body.name Body.appointmentDate Body.timeSlot].
  assert (In {| path := "timeSlot"; msg := "Time slot is required" |}
            (appointmentValidation isISO8601
               {| Body.name := Form.name formData;
                  Body.sex := Form.sex formData;
                  Body.age := n;
                  Body.complaint := Form.complaint formData;
                  Body.appointmentDate := "";
                  Body.timeSlot := "" |})) as Hin.
  { unfold appointmentValidation. cbv zeta. cbn [Body.timeSlot].
    do 8 (apply in_or_app; right). apply in_or_app. left. cbn. now left. }
  repeat split; try exact Hin.
  rewrite post_unfold.
  destruct (appointmentValidation isISO8601 _) eqn:V; [contradiction Hin | reflexivity].
Qed.

End FormFacts.

(** ** Dates of the same day *)

Section SameDayFacts.

Variable tz : Z.
Variable Date_parse : string -> option Z.
Variable isISO8601 : string -> bool.


End SameDayFacts.

(** ** The cap of the list *)

Lemma filter_length_app {A : Type} (p : A -> bool) (l1 l2 : list A) :
  List.length (filter p (l1 ++ l2))
  = (List.length (filter p l1) + List.length (filter p l2))%nat.
Proof. now rewrite filter_app, length_app. Qed.

Lemma filter_length_In {A : Type} (p : A -> bool) (l : list A) (x : A) :
  In x l -> p x = true -> (1 <= List.length (filter p l))%nat.
Proof.
  intros Hin Hp. assert (In x (filter p l)) as H by (apply filter_In; auto).
  destruct (filter p l); [contradiction | simpl; lia].
Qed.

Lemma filter_length_perm {A : Type} (p : A -> bool) (l l' : list A) :
  Permutation l l' -> List.length (filter p l) = List.length (filter p l').
Proof.
  induction 1 as [| x l l' _ IH | x y l | l l' l'' _ IH1 _ IH2]; simpl.
  - reflexivity.
  - destruct (p x); simpl; now rewrite IH.
  - destruct (p x), (p y); reflexivity.
  - now rewrite IH1.
Qed.

Lemma filter_none {A : Type} (p : A -> bool) (l : list A) :
  (forall a, In a l -> p a = false) -> filter p l = [].
Proof.
  induction l as [| x r IH]; intros H; simpl; [reflexivity |].
  rewrite (H x (or_introl eq_refl)). apply IH. intros a Ha. apply H. now right.
Qed.

(** A record later than all others is the last of the sorted ledger:
    nothing else reaches its date. *)
Lemma latest_not_in_front (ledger : Ledger) (d : Appointment.t) :
  (1000 <= List.length ledger)%nat ->
  (forall a, In a ledger ->
             Appointment.appointmentDate a < Appointment.appointmentDate d) ->
  ~ In d (findSortedLimited (ledger ++ [d])).
Proof.
  intros Hlen Hlate Hin. unfold findSortedLimited in Hin.
  set (sorted := sortByDate (ledger ++ [d])) in *.
  set (reaches := fun a => Appointment.appointmentDate d
                           <=? Appointment.appointmentDate a).
  pose proof (sortByDate_perm (ledger ++ [d])) as Hperm. fold sorted in Hperm.
  pose proof (sortByDate_sorted (ledger ++ [d])) as Hs. fold sorted in Hs.
  assert (List.length sorted = S (List.length ledger)) as Hl.
  { rewrite <- (Permutation_length Hperm), length_app. simpl. lia. }
  rewrite <- (firstn_skipn 1000 sorted) in Hs.
  destruct (StronglySorted_app_inv _ _ _ Hs) as (_ & _ & H12).
  destruct (skipn 1000 sorted) as [| b rest] eqn:Hskip.
  { pose proof (length_skipn 1000 sorted) as Hk. rewrite Hskip in Hk.
    simpl in Hk. lia. }
  assert (reaches d = true) as Rd by (unfold reaches; apply Z.leb_refl).
  assert (reaches b = true) as Rb.
  { unfold reaches. apply Z.leb_le. apply (H12 d b Hin). now left. }
  assert (List.length (filter reaches (ledger ++ [d])) = 1%nat) as One.
  { rewrite filter_length_app. simpl. rewrite Rd. simpl.
    rewrite (filter_none reaches ledger); [reflexivity |].
    intros a Ha. unfold reaches. apply Z.leb_gt. now apply Hlate. }
  rewrite (filter_length_perm reaches _ _ Hperm) in One.
  rewrite <- (firstn_skipn 1000 sorted), Hskip, filter_length_app in One.
  pose proof (filter_length_In reaches _ d Hin Rd).
  pose proof (filter_length_In reaches (b :: rest) b (or_introl eq_refl) Rb).
  lia.
Qed.

(** X19: the cap of the list hides the latest appointment.  When the
    ledger already holds a thousand records or more, all of them for dates
    before the one just booked, the list of all appointments has exactly a
    thousand entries and the new appointment is not among them. *)
Theorem cap_hides_latest
    (tz : Z) (Date_parse : string -> option Z) (isISO8601 : string -> bool)
    (now : Z) (uuid : string) (body : Body.t) (ledger ledger' : Ledger)
    (v : View.t) :
  postAppointments tz Date_parse isISO8601 now uuid body ledger = (Ok v, ledger') ->
  (1000 <= List.length ledger)%nat ->
  (forall a, In a ledger ->
             Appointment.appointmentDate a
             < Appointment.appointmentDate (View.doc v)) ->
  exists listed,
    getAppointments ledger' = (Ok listed, ledger')
    /\ List.length listed = 1000%nat
    /\ ~ In v listed.
Proof.
  intros P Hlen Hlate.
  destruct (post_Ok_inv _ _ _ _ _ _ _ _ _ P) as (_ & _ & _ & _ & _ & -> & ->).
  cbn [View.doc toView] in Hlate.
  eexists. split; [reflexivity |]. split.
  - rewrite length_map. unfold findSortedLimited. rewrite length_firstn.
    apply Nat.min_l.
    rewrite <- (Permutation_length (sortByDate_perm _)), length_app.
    cbn [List.length]. lia.
  - intros Hin. apply in_map_iff in Hin. destruct Hin as [a [Ha Hin]].
    apply (f_equal View.doc) in Ha. cbn [View.doc toView] in Ha. subst a.
    exact (latest_not_in_front ledger _ Hlen Hlate Hin).
Qed.

(** * Further scenarios *)

(** The request for Tuesday 2025-06-10 refused on Wednesday is refused
    alike a month later. *)
Lemma policy_rejection_is_final_witness :
  Sample.policy (Sample.wed_2025_06_11_0800 + 30 * 24 * Sample.hour)
    (JS.FromText "2025-06-10") "9:00–10:00 AM"
  = Sample.policy Sample.wed_2025_06_11_0800
      (JS.FromText "2025-06-10") "9:00–10:00 AM".
Proof.
  apply (policy_rejection_is_final 0 Wire.Date_parse);
    [vm_compute; discriminate | vm_compute; reflexivity].
Defined.

(** Midnight and nine o'clock of 2025-06-10, asked at eight and at one
    o'clock of that day. *)
Lemma policy_ignores_time_of_day_witness :
  validateAppointmentSlot 0 WireMore.Date_parse Sample.tue_2025_06_10_0800
    (JS.FromText "2025-06-10") "2:00–3:00 PM"
  = validateAppointmentSlot 0 WireMore.Date_parse
      (Sample.tue_2025_06_10_0800 + 5 * Sample.hour)
      (JS.FromText "2025-06-10T09:00:00Z") "2:00–3:00 PM".
Proof.
  apply (policy_ignores_time_of_day 0 WireMore.Date_parse _ _ _ _ _
           1749513600000 (1749513600000 + 9 * Sample.hour));
    vm_compute; reflexivity.
Defined.

(** A name of three spaces. *)
Lemma blank_text_is_missing_witness :
  Sample.post Sample.tue_2025_06_10_0800 "id-1"
    {| Body.name := "   ";
       Body.sex := "Male";
       Body.age := 30;
       Body.complaint := "Regular dental checkup";
       Body.appointmentDate := "2025-06-10";
       Body.timeSlot := "9:00–10:00 AM" |} []
  = (BadRequest (Some "Validation failed")
       [{| path := "name"; msg := "Name is required" |};
        {| path := "name"; msg := "Name must be between 2 and 100 characters" |}],
     []).
Proof.
  apply (proj2 (proj2 (blank_text_is_missing Wire.isISO8601 0 Wire.Date_parse
                         Sample.tue_2025_06_10_0800 "id-1"
                         {| Body.name := "   ";
                            Body.sex := "Male";
                            Body.age := 30;
                            Body.complaint := "Regular dental checkup";
                            Body.appointmentDate := "2025-06-10";
                            Body.timeSlot := "9:00–10:00 AM" |} []
                         (or_introl eq_refl)))).
Defined.



(** The week date 2025-W24-2 passes the validator, is not read by
    [Date.parse], and is refused as a past date. *)
Lemma unparsed_date_is_epoch_witness :
  WireMore.isISO8601 "2025-W24-2" = true
  /\ WireMore.Date_parse "2025-W24-2" = None
  /\ postAppointments 0 WireMore.Date_parse WireMore.isISO8601
       Sample.tue_2025_06_10_0800 "id-1"
       (Sample.checkup "2025-W24-2" "9:00–10:00 AM") []
     = (BadRequest (Some "Cannot book appointments for past dates") [], []).
Proof.
  split; [reflexivity | split; [reflexivity |]].
  apply (unparsed_date_is_epoch 0 WireMore.Date_parse WireMore.isISO8601);
    [vm_compute; reflexivity | reflexivity | vm_compute; split; reflexivity
    | vm_compute; reflexivity].
Defined.

(** Scenarios D and E in one: booking 9:00–10:00 AM on 2025-06-10 leaves
    the other five slots listed. *)
Lemma booked_slot_leaves_listing_witness :
  Sample.slots (Some "2025-06-10") [Sample.booked "id-1"]
  = (Ok {| Slots.available_slots :=
             minus (specAvailableSlots 0 [] 1749513600000) ["9:00–10:00 AM"];
           Slots.message := None |},
     [Sample.booked "id-1"])
  /\ minus (specAvailableSlots 0 [] 1749513600000) ["9:00–10:00 AM"]
     = ["10:00–11:00 AM"; "11:00–12:00 PM"; "12:00–1:00 PM";
        "2:00–3:00 PM"; "3:00–4:00 PM"].
Proof.
  split; [| reflexivity].
  apply (booked_slot_leaves_listing 0 Wire.Date_parse Wire.isISO8601
           Sample.tue_2025_06_10_0800 "id-1"
           (Sample.checkup "2025-06-10" "9:00–10:00 AM") []
           [Sample.booked "id-1"] (toView (Sample.booked "id-1")) 1749513600000
           ltac:(vm_compute; reflexivity) ltac:(discriminate) eq_refl).
Defined.


(** Three requests in a row, the second a repeat of the first. *)
Lemma ledger_stays_within_schema_witness :
  IdsUnique
    (serve 0 Wire.Date_parse Wire.isISO8601
       [{| arrival := Sample.tue_2025_06_10_0800; token := "id-1";
           payload := Sample.checkup "2025-06-10" "9:00–10:00 AM" |};
        {| arrival := Sample.tue_2025_06_10_0800; token := "id-2";
           payload := Sample.checkup "2025-06-10" "9:00–10:00 AM" |};
        {| arrival := Sample.tue_2025_06_10_0800; token := "id-3";
           payload := Sample.checkup "2025-06-11" "2:00–3:00 PM" |}] [])
  /\ WithinSchema
       (serve 0 Wire.Date_parse Wire.isISO8601
          [{| arrival := Sample.tue_2025_06_10_0800; token := "id-1";
              payload := Sample.checkup "2025-06-10" "9:00–10:00 AM" |};
           {| arrival := Sample.tue_2025_06_10_0800; token := "id-2";
              payload := Sample.checkup "2025-06-10" "9:00–10:00 AM" |};
           {| arrival := Sample.tue_2025_06_10_0800; token := "id-3";
              payload := Sample.checkup "2025-06-11" "2:00–3:00 PM" |}] []).
Proof.
  apply (ledger_stays_within_schema 0 Wire.Date_parse Wire.isISO8601).
  split; constructor.
Defined.


(** The morning and the afternoon of 2025-06-10, booked crosswise. *)
Lemma different_slots_do_not_interfere_witness :
  exists new1 new2 ledger',
    snd (Sample.post Sample.tue_2025_06_10_0800 "id-1"
           (Sample.checkup "2025-06-10" "9:00–10:00 AM") []) = [] ++ new1
    /\ snd (Sample.post Sample.tue_2025_06_10_0800 "id-2"
              (Sample.checkup "2025-06-10" "2:00–3:00 PM") []) = [] ++ new2
    /\ Sample.race [0; 1; 1; 0]%nat
         [Received Sample.tue_2025_06_10_0800 "id-1"
            (Sample.checkup "2025-06-10" "9:00–10:00 AM");
          Received Sample.tue_2025_06_10_0800 "id-2"
            (Sample.checkup "2025-06-10" "2:00–3:00 PM")] []
       = ([Finished
             (fst (Sample.post Sample.tue_2025_06_10_0800 "id-1"
                     (Sample.checkup "2025-06-10" "9:00–10:00 AM") []));
           Finished
             (fst (Sample.post Sample.tue_2025_06_10_0800 "id-2"
                     (Sample.checkup "2025-06-10" "2:00–3:00 PM") []))],
          ledger')
    /\ Permutation ledger' ([] ++ new1 ++ new2).
Proof.
  apply (different_slots_do_not_interfere 0 Wire.Date_parse Wire.isISO8601).
  - vm_compute. discriminate.
  - discriminate.
  - simpl. tauto.
Defined.

(** The two requests of scenario D, one after the other and crosswise. *)
Lemma double_booking_window_witness :
  Sample.race [0; 0; 1; 1]%nat
    [Received Sample.tue_2025_06_10_0800 "id-1"
       (Sample.checkup "2025-06-10" "9:00–10:00 AM");
     Received Sample.tue_2025_06_10_0800 "id-2"
       (Sample.checkup "2025-06-10" "9:00–10:00 AM")] []
  = ([Finished (Ok (toView (Sample.booked "id-1"))); Finished duplicateBooking],
     [Sample.booked "id-1"])
  /\ exists ledger',
       Sample.race [1; 0; 1; 0]%nat
         [Received Sample.tue_2025_06_10_0800 "id-1"
            (Sample.checkup "2025-06-10" "9:00–10:00 AM");
          Received Sample.tue_2025_06_10_0800 "id-2"
            (Sample.checkup "2025-06-10" "9:00–10:00 AM")] []
       = ([Finished (Ok (toView (Sample.booked "id-1")));
           Finished (Ok (toView (Sample.booked "id-2")))], ledger')
       /\ Permutation ledger' [Sample.booked "id-1"; Sample.booked "id-2"]
       /\ ~ SlotsUnique ledger'.
Proof.
  destruct (double_booking_window 0 Wire.Date_parse Wire.isISO8601
              Sample.tue_2025_06_10_0800 Sample.tue_2025_06_10_0800
              "id-1" "id-2" (Sample.checkup "2025-06-10" "9:00–10:00 AM")
              [] [Sample.booked "id-1"] [Sample.booked "id-2"]
              (toView (Sample.booked "id-1")) (toView (Sample.booked "id-2"))
              ltac:(discriminate) ltac:(vm_compute; reflexivity)
              ltac:(vm_compute; reflexivity))
    as (Hserial & _ & Hcross).
  split; [exact Hserial |].
  apply (Hcross [1; 0; 1; 0]%nat). simpl. tauto.
Defined.

(** The filled-in sample form is turned away. *)
Lemma form_submission_rejected_witness :
  asBody (submitted WireMore.parseInt sampleForm)
  = Some {| Body.name := "John Doe";
            Body.sex := "Male";
            Body.age := 30;
            Body.complaint := "Regular dental checkup";
            Body.appointmentDate := "";
            Body.timeSlot := "" |}
  /\ Sample.post Sample.tue_2025_06_10_0800 "id-1"
       {| Body.name := "John Doe";
          Body.sex := "Male";
          Body.age := 30;
          Body.complaint := "Regular dental checkup";
          Body.appointmentDate := "";
          Body.timeSlot := "" |} []
     = (BadRequest (Some "Validation failed")
          [{| path := "appointmentDate";
              msg := "Valid appointment date is required" |};
           {| path := "timeSlot"; msg := "Time slot is required" |};
           {| path := "timeSlot"; msg := "Invalid time slot selected" |}],
        []).
Proof.
  split; [reflexivity |].
  apply (proj2 (proj2 (proj2 (proj2
           (form_submission_rejected 0 Wire.Date_parse Wire.isISO8601
              WireMore.parseInt Sample.tue_2025_06_10_0800 "id-1" sampleForm
              _ [] eq_refl))))).
Defined.


(** A thousand visits of 2025-06-09 stand before the checkup of
    2025-06-10 in the list. *)
Lemma cap_hides_latest_witness :
  exists listed,
    getAppointments (fullLedger ++ [Sample.booked "id-1"])
    = (Ok listed, fullLedger ++ [Sample.booked "id-1"])
    /\ List.length listed = 1000%nat
    /\ ~ In (toView (Sample.booked "id-1")) listed.
Proof.
  apply (cap_hides_latest 0 Wire.Date_parse Wire.isISO8601
           Sample.tue_2025_06_10_0800 "id-1"
           (Sample.checkup "2025-06-10" "9:00–10:00 AM") fullLedger).
  - vm_compute. reflexivity.
  - unfold fullLedger. rewrite repeat_length. apply le_n.
  - intros a Ha. apply repeat_spec in Ha. subst a. vm_compute. reflexivity.
Defined.
